(** * BaseTile: dirty tracking and paint/draw hand-over of one page tile

    Shallow embedding of
    [WebCore/platform/graphics/android/BaseTile.cpp].

    A [BaseTile] is one cell of the page grid.  The consumer (GL) thread
    reserves a pooled texture for it and draws it; the producer (texture
    generation) thread paints it when it is dirty.  Every method of the
    class is a computation in a small state-and-error monad over a
    [World]: the tile's own fields, the pool's textures the tile points
    into, the state of the collaborators, and the trace of calls made on
    them. *)

From Stdlib Require Import ZArith Bool List Lia.
From Stdlib Require Import Floats.SpecFloat.
From stdpp Require Import base option gmap.

Local Open Scope Z_scope.

(** ** Machine data *)

(** An object address; [0] is the null pointer. *)
Abbreviation ptr := N (only parsing).

Definition is_null (p : ptr) : bool := (p =? 0)%N.

(** C [int]: 32 bits, two's complement. *)
Definition int_wrap (z : Z) : Z := (z + 2 ^ 31) mod 2 ^ 32 - 2 ^ 31.

(** C [float]: IEEE 754 binary32. *)
Abbreviation float := spec_float (only parsing).

Module Float.

Definition prec : Z := 24.
Definition emax : Z := 128.

(** Conversion [int -> float], round to nearest even. *)
Definition of_int (z : Z) : float := binary_normalize prec emax z 0 false.

Definition mul (a b : float) : float := SFmul prec emax a b.

Definition div (a b : float) : float := SFdiv prec emax a b.

(** [a != b]: true on unordered operands (NaN). *)
Definition neq (a b : float) : bool := negb (SFeqb a b).

End Float.

(** ** The collaborators' data *)

(** Modelled from the spec: the declaration of [TextureInfo] is not in
    the sources; these are the fields the tile reads from the surface
    descriptor a texture lock yields. *)
Record TextureInfo := {
  m_textureId : Z;
  m_width : Z;
  m_height : Z
}.

(** Modelled from the spec: the declaration of
    [BackedDoubleBufferedTexture] is not in the sources.  A pooled
    texture records its owning tile and its used level, and its locks
    yield surface descriptors: [producerLock()] the writable one,
    [consumerLock()] the readable one or null ([None]) when the surface
    is unavailable. *)
Record BackedDoubleBufferedTexture := {
  owner : ptr;
  usedLevel : Z;
  producerInfo : TextureInfo;
  consumerInfo : option TextureInfo
}.

Definition set_usedLevel (l : Z) (T : BackedDoubleBufferedTexture) :=
  {| owner := owner T; usedLevel := l;
     producerInfo := producerInfo T; consumerInfo := consumerInfo T |}.

Record SkRect := {
  fLeft : float; fTop : float; fRight : float; fBottom : float
}.

(** Calls on the [SkCanvas] of a texture. *)
Inductive CanvasCall :=
| Save
| Scale (sx sy : float)
| Translate (dx dy : float)
| Restore.

(** Calls the tile makes on its collaborators, in program order. *)
Inductive Event :=
| GetAvailableTexture (tile : ptr)
| ConsumerLock (texture : ptr)
| ConsumerRelease (texture : ptr)
| DrawQuad (rect : SkRect) (textureId : Z) (transparency : float)
| ProducerLock (texture : ptr)
| ProducerRelease (texture : ptr)
| ProducerUpdate (texture : ptr) (info : TextureInfo)
| Canvas (texture : ptr) (call : CanvasCall)
| PaintBaseLayerContent (page : ptr).

(** ** The tile *)

Record BaseTile := {
  m_page : ptr;
  m_x : Z;
  m_y : Z;
  m_texture : ptr;
  m_scale : float;
  m_dirty : bool;
  m_lastDirtyPicture : Z;
  m_lastPaintedPicture : Z
}.

Definition set_texture (p : ptr) (t : BaseTile) : BaseTile :=
  {| m_page := m_page t; m_x := m_x t; m_y := m_y t;
     m_texture := p; m_scale := m_scale t; m_dirty := m_dirty t;
     m_lastDirtyPicture := m_lastDirtyPicture t;
     m_lastPaintedPicture := m_lastPaintedPicture t |}.

Definition set_scale (s : float) (t : BaseTile) : BaseTile :=
  {| m_page := m_page t; m_x := m_x t; m_y := m_y t;
     m_texture := m_texture t; m_scale := s; m_dirty := m_dirty t;
     m_lastDirtyPicture := m_lastDirtyPicture t;
     m_lastPaintedPicture := m_lastPaintedPicture t |}.

Definition set_dirty (d : bool) (t : BaseTile) : BaseTile :=
  {| m_page := m_page t; m_x := m_x t; m_y := m_y t;
     m_texture := m_texture t; m_scale := m_scale t; m_dirty := d;
     m_lastDirtyPicture := m_lastDirtyPicture t;
     m_lastPaintedPicture := m_lastPaintedPicture t |}.

Definition set_lastDirtyPicture (g : Z) (t : BaseTile) : BaseTile :=
  {| m_page := m_page t; m_x := m_x t; m_y := m_y t;
     m_texture := m_texture t; m_scale := m_scale t; m_dirty := m_dirty t;
     m_lastDirtyPicture := g;
     m_lastPaintedPicture := m_lastPaintedPicture t |}.

Definition set_lastPaintedPicture (g : Z) (t : BaseTile) : BaseTile :=
  {| m_page := m_page t; m_x := m_x t; m_y := m_y t;
     m_texture := m_texture t; m_scale := m_scale t; m_dirty := m_dirty t;
     m_lastDirtyPicture := m_lastDirtyPicture t;
     m_lastPaintedPicture := g |}.

(** [BaseTile::BaseTile(TiledPage* page, int x, int y)] *)
Definition BaseTile_new (page : ptr) (x y : Z) : BaseTile :=
  {| m_page := page; m_x := x; m_y := y;
     m_texture := 0%N;
     m_scale := Float.of_int 1;
     m_dirty := true;
     m_lastDirtyPicture := 0;
     m_lastPaintedPicture := 0 |}.

(** ** The collaborators' code

    The texture pool and the page's rasterizer are outside
    [BaseTile.cpp].  [Ext] is the part of their state the tile cannot
    see (page content, pool bookkeeping).  The pool chooses a texture
    for a tile and may re-own textures while doing so; the rasterizer
    paints through the canvas it is given and returns the picture count
    it painted. *)
Class Collaborators := {
  Ext : Type;
  getAvailableTexture :
    ptr -> gmap N BackedDoubleBufferedTexture -> Ext ->
    ptr * gmap N BackedDoubleBufferedTexture * Ext;
  paintBaseLayerContent :
    ptr -> list CanvasCall -> Ext -> Z * Ext
}.

(** ** Worlds and the method monad *)

Section Tile.

Context `{Collaborators}.

Record World := {
  tile : BaseTile;
  textures : gmap N BackedDoubleBufferedTexture;
  ext : Ext;
  trace : list Event
}.

(** A method either completes with a result and a new world, or has no
    defined behaviour ([None]: a non-null texture pointer that denotes
    no texture of the pool). *)
Definition M (A : Type) : Type := World -> option (A * World).

Definition ret {A} (a : A) : M A := fun w => Some (a, w).

Definition bind {A B} (c : M A) (k : A -> M B) : M B :=
  fun w => match c w with
           | Some (a, w') => k a w'
           | None => None
           end.

Notation "x <- c ;; k" := (bind c (fun x => k))
  (at level 100, c at next level, right associativity).
Notation "c ;; k" := (bind c (fun _ => k))
  (at level 100, right associativity).

Definition getTile : M BaseTile := fun w => Some (tile w, w).

Definition modifyTile (f : BaseTile -> BaseTile) : M unit :=
  fun w => Some (tt, {| tile := f (tile w); textures := textures w;
                        ext := ext w; trace := trace w |}).

(** [*p] for a texture pointer. *)
Definition deref (p : ptr) : M BackedDoubleBufferedTexture :=
  fun w => match textures w !! p with
           | Some T => Some (T, w)
           | None => None
           end.

Definition store (p : ptr) (T : BackedDoubleBufferedTexture) : M unit :=
  fun w => Some (tt, {| tile := tile w; textures := <[p := T]> (textures w);
                        ext := ext w; trace := trace w |}).

Definition emit (e : Event) : M unit :=
  fun w => Some (tt, {| tile := tile w; textures := textures w;
                        ext := ext w; trace := trace w ++ [e] |}).

Definition TilesManager_getAvailableTexture (this : ptr) : M ptr :=
  fun w =>
    let '(texture, pool, e) := getAvailableTexture this (textures w) (ext w) in
    Some (texture, {| tile := tile w; textures := pool; ext := e;
                      trace := trace w ++ [GetAvailableTexture this] |}).

Definition TiledPage_paintBaseLayerContent
    (page : ptr) (canvas : list CanvasCall) : M Z :=
  fun w =>
    let '(pictureCount, e) := paintBaseLayerContent page canvas (ext w) in
    Some (pictureCount, {| tile := tile w; textures := textures w; ext := e;
                           trace := trace w ++ [PaintBaseLayerContent page] |}).

(** ** The methods, called from the main GL thread *)

Definition reserveTexture (this : ptr) : M unit :=
  texture <- TilesManager_getAvailableTexture this ;;
  t <- getTile ;;
  (if negb (m_texture t =? texture)%N
   then modifyTile (set_lastPaintedPicture 0) ;;
        modifyTile (set_dirty true)
   else ret tt) ;;
  modifyTile (set_texture texture).

Definition removeTexture : M unit :=
  modifyTile (set_texture 0%N).

Definition setScale (scale : float) : M unit :=
  t <- getTile ;;
  (if Float.neq (m_scale t) scale
   then modifyTile (set_dirty true)
   else ret tt) ;;
  modifyTile (set_scale scale).

Definition markAsDirty (pictureCount : Z) : M unit :=
  modifyTile (set_lastDirtyPicture pictureCount) ;;
  t <- getTile ;;
  if m_lastPaintedPicture t <? m_lastDirtyPicture t
  then modifyTile (set_dirty true)
  else ret tt.

Definition isDirty : M bool :=
  t <- getTile ;;
  ret (m_dirty t).

Definition setUsedLevel (level : Z) : M unit :=
  t <- getTile ;;
  if is_null (m_texture t) then ret tt
  else
    T <- deref (m_texture t) ;;
    store (m_texture t) (set_usedLevel level T).


Definition draw (transparency : float) (rect : SkRect) : M unit :=
  t <- getTile ;;
  if is_null (m_texture t) then ret tt
  else
    T <- deref (m_texture t) ;;
    emit (ConsumerLock (m_texture t)) ;;
    match consumerInfo T with
    | None => emit (ConsumerRelease (m_texture t))
    | Some textureInfo =>
        t' <- getTile ;;
        let isTexturePainted := negb (m_lastPaintedPicture t' =? 0) in
        (if isTexturePainted
         then emit (DrawQuad rect (m_textureId textureInfo) transparency)
         else ret tt) ;;
        emit (ConsumerRelease (m_texture t))
    end.

Definition isTileReady (this : ptr) : M bool :=
  t <- getTile ;;
  if is_null (m_texture t) then ret false
  else
    T <- deref (m_texture t) ;;
    if negb (owner T =? this)%N then ret false
    else
      t' <- getTile ;;
      ret (negb (m_dirty t')).

(** ** [paintBitmap], called from the texture generation thread

    The method takes the tile's mutex twice: once to read the snapshot,
    once to commit.  Between the two it holds no tile lock, so the GL
    thread's methods can run there; the three phases are therefore kept
    apart and [paintBitmap] is their composition. *)

Record Snapshot := {
  snap_dirty : bool;
  snap_texture : ptr;
  snap_scale : float
}.

Definition paintBitmap_snapshot : M Snapshot :=
  t <- getTile ;;
  ret {| snap_dirty := m_dirty t;
         snap_texture := m_texture t;
         snap_scale := m_scale t |}.

(** From the producer lock to [producerUpdate]: [None] when the paint is
    abandoned, the painted picture count otherwise.  The logging and the
    diagonal lines of the DEBUG build are compiled out. *)
Definition paintBitmap_render (this : ptr) (s : Snapshot) : M (option Z) :=
  let texture := snap_texture s in
  let scale := snap_scale s in
  t <- getTile ;;
  let x := m_x t in
  let y := m_y t in
  let tiledPage := m_page t in
  emit (ProducerLock texture) ;;
  T <- deref texture ;;
  let textureInfo := producerInfo T in
  if negb (owner T =? this)%N || (usedLevel T >? 1)
  then emit (ProducerRelease texture) ;; ret None
  else
    let tileWidth := Float.of_int (m_width textureInfo) in
    let tileHeight := Float.of_int (m_height textureInfo) in
    let invScale := Float.div (Float.of_int 1) scale in
    let w := Float.mul tileWidth invScale in
    let h := Float.mul tileHeight invScale in
    let translate :=
      Translate (Float.mul (Float.of_int (int_wrap (- x))) w)
                (Float.mul (Float.of_int (int_wrap (- y))) h) in
    emit (Canvas texture Save) ;;
    emit (Canvas texture (Scale scale scale)) ;;
    emit (Canvas texture translate) ;;
    pictureCount <-
      TiledPage_paintBaseLayerContent tiledPage
        [Save; Scale scale scale; translate] ;;
    emit (Canvas texture Restore) ;;
    emit (ProducerUpdate texture textureInfo) ;;
    ret (Some pictureCount).

Definition paintBitmap_commit (pictureCount : Z) : M unit :=
  modifyTile (set_lastPaintedPicture pictureCount) ;;
  t <- getTile ;;
  if m_lastPaintedPicture t >=? m_lastDirtyPicture t
  then modifyTile (set_dirty false)
  else ret tt.

Definition paintBitmap (this : ptr) : M unit :=
  s <- paintBitmap_snapshot ;;
  if negb (snap_dirty s) || is_null (snap_texture s) then ret tt
  else
    painted <- paintBitmap_render this s ;;
    match painted with
    | None => ret tt
    | Some pictureCount => paintBitmap_commit pictureCount
    end.

(** ** Calls on one tile *)

(** The methods the GL thread calls to change a tile or to show it. *)
Inductive GLCall :=
| ReserveTexture
| RemoveTexture
| SetScale (scale : float)
| MarkAsDirty (pictureCount : Z)
| SetUsedLevel (level : Z)
| Draw (transparency : float) (rect : SkRect).

Definition gl_call (this : ptr) (c : GLCall) : M unit :=
  match c with
  | ReserveTexture => reserveTexture this
  | RemoveTexture => removeTexture
  | SetScale scale => setScale scale
  | MarkAsDirty pictureCount => markAsDirty pictureCount
  | SetUsedLevel level => setUsedLevel level
  | Draw transparency rect => draw transparency rect
  end.

Fixpoint gl_calls (this : ptr) (cs : list GLCall) : M unit :=
  match cs with
  | [] => ret tt
  | c :: cs' => gl_call this c ;; gl_calls this cs'
  end.

(** A call of either thread, run to completion before the next one. *)
Inductive Call :=
| OnGL (c : GLCall)
| PaintBitmap.

Definition call (this : ptr) (c : Call) : M unit :=
  match c with
  | OnGL c => gl_call this c
  | PaintBitmap => paintBitmap this
  end.

Fixpoint calls (this : ptr) (cs : list Call) : M unit :=
  match cs with
  | [] => ret tt
  | c :: cs' => call this c ;; calls this cs'
  end.

(** Worlds a tile at address [this] can be in when its methods run one
    after the other: it is constructed, its methods are called, and in
    between the rest of the program (other tiles, the pool, the page)
    changes everything that is not the tile's own fields. *)
Inductive reachable (this : ptr) : World -> Prop :=
| reachable_new page x y pool e :
    reachable this {| tile := BaseTile_new page x y; textures := pool;
                      ext := e; trace := [] |}
| reachable_call w c w' :
    reachable this w ->
    call this c w = Some (tt, w') ->
    reachable this w'
| reachable_env w pool e :
    reachable this w ->
    reachable this {| tile := tile w; textures := pool;
                      ext := e; trace := trace w |}.

(** [paintBitmap] with the GL thread running [before_render] after the
    snapshot was taken and [before_commit] while the texture is painted,
    the two windows in which the producer does not hold the tile's
    mutex. *)
Definition paintBitmap_interleaved
    (this : ptr) (before_render before_commit : M unit) : M unit :=
  s <- paintBitmap_snapshot ;;
  if negb (snap_dirty s) || is_null (snap_texture s) then ret tt
  else
    before_render ;;
    painted <- paintBitmap_render this s ;;
    match painted with
    | None => ret tt
    | Some pictureCount => before_commit ;; paintBitmap_commit pictureCount
    end.

(** The canvas calls [paintBitmap] makes before it calls the rasterizer,
    for a tile at [(x, y)] painted at [scale] into a surface of the
    given descriptor. *)
Definition paint_canvas (x y : Z) (scale : float) (info : TextureInfo)
    : list CanvasCall :=
  let invScale := Float.div (Float.of_int 1) scale in
  let w := Float.mul (Float.of_int (m_width info)) invScale in
  let h := Float.mul (Float.of_int (m_height info)) invScale in
  [Save; Scale scale scale;
   Translate (Float.mul (Float.of_int (int_wrap (- x))) w)
             (Float.mul (Float.of_int (int_wrap (- y))) h)].

(** The quads a stretch of the trace submitted to the shader. *)
Definition is_quad (e : Event) : bool :=
  match e with DrawQuad _ _ _ => true | _ => false end.

Definition quads (evs : list Event) : list Event := List.filter is_quad evs.

(** A run of [markAsDirty] calls, first to last. *)
Definition markAsDirty_all (gs : list Z) : M unit :=
  List.fold_right (fun g k => markAsDirty g ;; k) (ret tt) gs.

(** The highest picture count of the run [g :: gs]. *)
Definition highest (g : Z) (gs : list Z) : Z := List.fold_right Z.max g gs.

(** The relation the tile keeps between its picture counts and
    [m_dirty]: a paint older than the last invalidation leaves the tile
    dirty. *)
Definition dirty_covers (t : BaseTile) : Prop :=
  m_lastPaintedPicture t < m_lastDirtyPicture t -> m_dirty t = true.

End Tile.

Arguments World {_}.
Arguments M {_} A.

(** ** The order of the calls on a texture

    What a stretch of the trace may hold, read as a small automaton: a
    texture is locked for the consumer or for the producer, the calls
    that need the lock come while it is held, and one call gives it
    back ([consumerRelease] for the consumer; [producerRelease] or
    [producerUpdate] for the producer). *)

Record Locks := {
  consumer_held : option ptr;
  producer_held : option ptr
}.

Definition no_locks : Locks :=
  {| consumer_held := None; producer_held := None |}.

Definition holds (held : option ptr) (texture : ptr) : bool :=
  match held with
  | Some p => (p =? texture)%N
  | None => false
  end.

Definition lock_step (l : Locks) (e : Event) : option Locks :=
  match e with
  | GetAvailableTexture _ => Some l
  | ConsumerLock texture =>
      match consumer_held l with
      | None => Some {| consumer_held := Some texture;
                        producer_held := producer_held l |}
      | Some _ => None
      end
  | ConsumerRelease texture =>
      if holds (consumer_held l) texture
      then Some {| consumer_held := None; producer_held := producer_held l |}
      else None
  | DrawQuad _ _ _ =>
      match consumer_held l with
      | Some _ => Some l
      | None => None
      end
  | ProducerLock texture =>
      match producer_held l with
      | None => Some {| consumer_held := consumer_held l;
                        producer_held := Some texture |}
      | Some _ => None
      end
  | ProducerRelease texture | ProducerUpdate texture _ =>
      if holds (producer_held l) texture
      then Some {| consumer_held := consumer_held l; producer_held := None |}
      else None
  | Canvas texture _ =>
      if holds (producer_held l) texture then Some l else None
  | PaintBaseLayerContent _ =>
      match producer_held l with
      | Some _ => Some l
      | None => None
      end
  end.

Fixpoint lock_run (l : Locks) (evs : list Event) : option Locks :=
  match evs with
  | [] => Some l
  | e :: evs' =>
      match lock_step l e with
      | Some l' => lock_run l' evs'
      | None => None
      end
  end.

(** The calls that write into a texture or publish what was written. *)
Definition is_paint (e : Event) : bool :=
  match e with
  | Canvas _ _ | PaintBaseLayerContent _ | ProducerUpdate _ _ => true
  | _ => false
  end.

(** The tile as the commit of [paintBitmap] leaves it for a painted
    picture count. *)
Definition committed (pictureCount : Z) (t : BaseTile) : BaseTile :=
  if m_lastDirtyPicture t <=? pictureCount
  then set_dirty false (set_lastPaintedPicture pictureCount t)
  else set_lastPaintedPicture pictureCount t.

(** ** Sample collaborators and worlds *)

(** A pool that hands every tile the texture at address [7] and leaves
    the textures as they are; a page whose picture count is the hidden
    state. *)
Definition sample_collaborators : Collaborators :=
  {| Ext := Z;
     getAvailableTexture := fun _ pool e => (7%N, pool, e);
     paintBaseLayerContent := fun _ _ e => (e, e) |}.

Definition sample_info : TextureInfo :=
  {| m_textureId := 3; m_width := 256; m_height := 256 |}.

Definition sample_texture (own : ptr) (level : Z) (ready : bool)
    : BackedDoubleBufferedTexture :=
  {| owner := own; usedLevel := level;
     producerInfo := sample_info;
     consumerInfo := if ready then Some sample_info else None |}.

Definition sample_rect : SkRect :=
  {| fLeft := Float.of_int 0; fTop := Float.of_int 0;
     fRight := Float.of_int 256; fBottom := Float.of_int 256 |}.

Definition sample_tile (texture : ptr) (dirty : bool) (lastDirty lastPainted : Z)
    : BaseTile :=
  {| m_page := 1%N; m_x := 2; m_y := 3;
     m_texture := texture; m_scale := Float.of_int 1; m_dirty := dirty;
     m_lastDirtyPicture := lastDirty;
     m_lastPaintedPicture := lastPainted |}.

(** The world of a tile at address [5] with one pooled texture at [7]
    and a page whose picture count is [pictures]. *)
Definition sample_world (t : BaseTile) (T : BackedDoubleBufferedTexture)
    (pictures : Z) : @World sample_collaborators :=
  @Build_World sample_collaborators t {[ 7%N := T ]} pictures [].

(** The tile at address [5] as constructed, with the pool's texture
    owned by it, visible and ready to be shown. *)
Definition fresh_world (pictures : Z) : @World sample_collaborators :=
  sample_world (BaseTile_new 1%N 2 3) (sample_texture 5%N 0 true) pictures.

Definition sample_run (cs : list Call) (w : @World sample_collaborators)
    : @World sample_collaborators :=
  match calls 5%N cs w with
  | Some (_, w') => w'
  | None => w
  end.

(** The tile after it reserved its texture, was invalidated at the
    page's picture count and was painted. *)
Definition painted_world (pictures : Z) : @World sample_collaborators :=
  sample_run [OnGL ReserveTexture; OnGL (MarkAsDirty pictures); PaintBitmap]
    (fresh_world pictures).

(** A dirty tile at address [5], invalidated at picture count 5 and
    never painted, that owns the pool's texture; the page is at picture
    count [pictures]. *)
Definition owned_dirty_world (pictures : Z) : @World sample_collaborators :=
  sample_world (sample_tile 7%N true 5 0) (sample_texture 5%N 0 true) pictures.

(** A tile's day: reserve, invalidate, paint, draw. *)
Definition sample_day : list Call :=
  [OnGL ReserveTexture; OnGL (MarkAsDirty 5); PaintBitmap;
   OnGL (Draw (Float.of_int 1) sample_rect)].

(** * Properties *)

Section TileProperties.

Context `{Collaborators}.

(** ** What each method does to the world *)

Ltac unfold_monad :=
  unfold bind, ret, getTile, modifyTile, deref, store, emit,
    TilesManager_getAvailableTexture, TiledPage_paintBaseLayerContent in *.

Lemma is_null_true (p : ptr) : is_null p = true <-> p = 0%N.
Proof. unfold is_null. apply N.eqb_eq. Qed.

Lemma is_null_false (p : ptr) : is_null p = false <-> p <> 0%N.
Proof. unfold is_null. apply N.eqb_neq. Qed.

Lemma markAsDirty_run (g : Z) (w : World) :
  markAsDirty g w =
  Some (tt, {| tile :=
                 (if m_lastPaintedPicture (tile w) <? g
                  then set_dirty true (set_lastDirtyPicture g (tile w))
                  else set_lastDirtyPicture g (tile w));
               textures := textures w; ext := ext w; trace := trace w |}).
Proof.
  unfold markAsDirty. unfold_monad. simpl.
  destruct (m_lastPaintedPicture (tile w) <? g); reflexivity.
Qed.

(** C3. [markAsDirty(g)] always completes; it stores [g] into
    [m_lastDirtyPicture] whatever value was there (last write wins),
    sets [m_dirty] when [m_lastPaintedPicture < g], never clears a set
    [m_dirty], and leaves every other field of the tile, the pool, the
    collaborators and the trace as they were. *)
Theorem markAsDirty_overwrites_and_only_sets (g : Z) (w : World) :
  exists w',
    markAsDirty g w = Some (tt, w') /\
    m_lastDirtyPicture (tile w') = g /\
    (m_lastPaintedPicture (tile w) < g -> m_dirty (tile w') = true) /\
    (m_dirty (tile w) = true -> m_dirty (tile w') = true) /\
    m_dirty (tile w') =
      m_dirty (tile w) || (m_lastPaintedPicture (tile w) <? g) /\
    m_lastPaintedPicture (tile w') = m_lastPaintedPicture (tile w) /\
    m_texture (tile w') = m_texture (tile w) /\
    m_scale (tile w') = m_scale (tile w) /\
    m_page (tile w') = m_page (tile w) /\
    m_x (tile w') = m_x (tile w) /\
    m_y (tile w') = m_y (tile w) /\
    textures w' = textures w /\ ext w' = ext w /\ trace w' = trace w.
Proof.
  eexists. split; [apply markAsDirty_run|]. simpl.
  destruct (Z.ltb_spec (m_lastPaintedPicture (tile w)) g); simpl;
    rewrite ?orb_true_r, ?orb_false_r; repeat split; auto; lia.
Qed.

Lemma reserveTexture_run (this : ptr) (w : World) :
  reserveTexture this w =
  Some (tt,
        let r := getAvailableTexture this (textures w) (ext w) in
        {| tile :=
             set_texture r.1.1
               (if negb (m_texture (tile w) =? r.1.1)%N
                then set_dirty true (set_lastPaintedPicture 0 (tile w))
                else tile w);
           textures := r.1.2; ext := r.2;
           trace := trace w ++ [GetAvailableTexture this] |}).
Proof.
  unfold reserveTexture. unfold_monad. simpl.
  destruct (getAvailableTexture this (textures w) (ext w)) as [[texture pool] e].
  simpl. destruct (m_texture (tile w) =? texture)%N; reflexivity.
Qed.

Lemma removeTexture_run (w : World) :
  removeTexture w =
  Some (tt, {| tile := set_texture 0%N (tile w); textures := textures w;
               ext := ext w; trace := trace w |}).
Proof. reflexivity. Qed.

Lemma setScale_run (scale : float) (w : World) :
  setScale scale w =
  Some (tt, {| tile :=
                 set_scale scale
                   (if Float.neq (m_scale (tile w)) scale
                    then set_dirty true (tile w) else tile w);
               textures := textures w; ext := ext w; trace := trace w |}).
Proof.
  unfold setScale. unfold_monad. simpl.
  destruct (Float.neq (m_scale (tile w)) scale); reflexivity.
Qed.

Lemma isDirty_run (w : World) : isDirty w = Some (m_dirty (tile w), w).
Proof. reflexivity. Qed.

Lemma world_eta (w : World) :
  {| tile := tile w; textures := textures w; ext := ext w; trace := trace w |}
  = w.
Proof. destruct w; reflexivity. Qed.

(** ** [isTileReady] *)

Lemma isTileReady_null (this : ptr) (w : World) :
  m_texture (tile w) = 0%N -> isTileReady this w = Some (false, w).
Proof.
  intros Hnull. unfold isTileReady. unfold_monad. simpl.
  now rewrite Hnull.
Qed.

Lemma isTileReady_live (this : ptr) (w : World) T :
  m_texture (tile w) <> 0%N ->
  textures w !! m_texture (tile w) = Some T ->
  isTileReady this w =
  Some ((owner T =? this)%N && negb (m_dirty (tile w)), w).
Proof.
  intros Hnn HT. unfold isTileReady. unfold_monad. simpl.
  apply is_null_false in Hnn. rewrite Hnn, HT.
  destruct (owner T =? this)%N; reflexivity.
Qed.

Lemma isTileReady_dirty (this : ptr) (w : World) b w' :
  m_dirty (tile w) = true ->
  isTileReady this w = Some (b, w') -> b = false.
Proof.
  intros Hd. unfold isTileReady. unfold_monad. simpl.
  destruct (is_null (m_texture (tile w))); [congruence|].
  destruct (textures w !! m_texture (tile w)) as [T|]; [|discriminate].
  destruct (owner T =? this)%N; simpl; rewrite ?Hd; simpl; congruence.
Qed.

(** C7. [isTileReady()] answers false when the tile holds no texture,
    false when the texture it holds records another owner (whatever
    [m_dirty] is), and the negation of [m_dirty] when the texture's
    owner is this tile; in each case the world it returns is the world
    it was called in. *)
Theorem isTileReady_cases (this : ptr) (w : World) :
  (m_texture (tile w) = 0%N -> isTileReady this w = Some (false, w)) /\
  (forall T,
      m_texture (tile w) <> 0%N ->
      textures w !! m_texture (tile w) = Some T ->
      owner T <> this ->
      isTileReady this w = Some (false, w)) /\
  (forall T,
      m_texture (tile w) <> 0%N ->
      textures w !! m_texture (tile w) = Some T ->
      owner T = this ->
      isTileReady this w = Some (negb (m_dirty (tile w)), w)).
Proof.
  split; [apply isTileReady_null|]. split; intros T Hnn HT Ho.
  - rewrite (isTileReady_live this w T Hnn HT).
    apply N.eqb_neq in Ho. now rewrite Ho.
  - rewrite (isTileReady_live this w T Hnn HT).
    apply N.eqb_eq in Ho. now rewrite Ho.
Qed.

(** ** [draw] *)

Lemma draw_null (transparency : float) (rect : SkRect) (w : World) :
  m_texture (tile w) = 0%N -> draw transparency rect w = Some (tt, w).
Proof.
  intros Hnull. unfold draw. unfold_monad. simpl. now rewrite Hnull.
Qed.

Lemma draw_live (transparency : float) (rect : SkRect) (w : World) T :
  m_texture (tile w) <> 0%N ->
  textures w !! m_texture (tile w) = Some T ->
  draw transparency rect w =
  Some (tt,
        {| tile := tile w; textures := textures w; ext := ext w;
           trace :=
             trace w ++
             match consumerInfo T with
             | None => [ConsumerLock (m_texture (tile w));
                        ConsumerRelease (m_texture (tile w))]
             | Some info =>
                 if m_lastPaintedPicture (tile w) =? 0
                 then [ConsumerLock (m_texture (tile w));
                       ConsumerRelease (m_texture (tile w))]
                 else [ConsumerLock (m_texture (tile w));
                       DrawQuad rect (m_textureId info) transparency;
                       ConsumerRelease (m_texture (tile w))]
             end |}).
Proof.
  intros Hnn HT. unfold draw. unfold_monad. simpl.
  apply is_null_false in Hnn. rewrite Hnn, HT.
  destruct (consumerInfo T) as [info|]; simpl.
  - destruct (m_lastPaintedPicture (tile w) =? 0); simpl;
      now rewrite <- ?app_assoc.
  - now rewrite <- ?app_assoc.
Qed.

(** C8. [draw(transparency, rect)] changes nothing when the tile holds
    no texture.  When it holds one, it changes only the trace: with the
    consumer lock yielding no surface it locks and releases; with
    [m_lastPaintedPicture] zero it submits no quad; and it submits a
    quad exactly when the lock yields a surface and
    [m_lastPaintedPicture] is not zero, between the consumer lock and
    its release. *)
Theorem draw_submits_quad_only_when_painted
    (transparency : float) (rect : SkRect) (w : World) :
  (m_texture (tile w) = 0%N -> draw transparency rect w = Some (tt, w)) /\
  (forall T,
      m_texture (tile w) <> 0%N ->
      textures w !! m_texture (tile w) = Some T ->
      exists evs,
        draw transparency rect w =
          Some (tt, {| tile := tile w; textures := textures w;
                       ext := ext w; trace := trace w ++ evs |}) /\
        (consumerInfo T = None ->
         evs = [ConsumerLock (m_texture (tile w));
                ConsumerRelease (m_texture (tile w))]) /\
        (m_lastPaintedPicture (tile w) = 0 -> quads evs = []) /\
        (quads evs <> [] <->
         exists info,
           consumerInfo T = Some info /\ m_lastPaintedPicture (tile w) <> 0) /\
        (forall info,
            consumerInfo T = Some info ->
            m_lastPaintedPicture (tile w) <> 0 ->
            evs = [ConsumerLock (m_texture (tile w));
                   DrawQuad rect (m_textureId info) transparency;
                   ConsumerRelease (m_texture (tile w))])).
Proof.
  split; [apply draw_null|]. intros T Hnn HT.
  eexists. split; [apply (draw_live _ _ _ T Hnn HT)|].
  destruct (consumerInfo T) as [info|].
  - destruct (Z.eqb_spec (m_lastPaintedPicture (tile w)) 0) as [Hz|Hz]; simpl.
    + repeat split; try congruence.
      intros [info' [_ Hp]]. congruence.
    + repeat split; try congruence.
      intros _. now exists info.
  - simpl. repeat split; try congruence.
    intros [info [Hi _]]. discriminate.
Qed.

(** ** [paintBitmap]: the exits that do not paint *)

Lemma paintBitmap_not_due (this : ptr) (w : World) :
  m_dirty (tile w) = false \/ m_texture (tile w) = 0%N ->
  paintBitmap this w = Some (tt, w).
Proof.
  intros Hfast. unfold paintBitmap, paintBitmap_snapshot. unfold_monad. simpl.
  destruct Hfast as [Hd|Hn]; [now rewrite Hd|].
  rewrite Hn. simpl. now rewrite orb_true_r.
Qed.

Lemma paintBitmap_render_run (this : ptr) (s : Snapshot) (w : World) T :
  textures w !! snap_texture s = Some T ->
  paintBitmap_render this s w =
  if negb (owner T =? this)%N || (1 <? usedLevel T)
  then Some (None,
             {| tile := tile w; textures := textures w; ext := ext w;
                trace := trace w ++ [ProducerLock (snap_texture s);
                                     ProducerRelease (snap_texture s)] |})
  else
    let canvas :=
      paint_canvas (m_x (tile w)) (m_y (tile w)) (snap_scale s)
        (producerInfo T) in
    let r := paintBaseLayerContent (m_page (tile w)) canvas (ext w) in
    Some (Some r.1,
          {| tile := tile w; textures := textures w; ext := r.2;
             trace :=
               trace w ++
               [ProducerLock (snap_texture s)] ++
               map (Canvas (snap_texture s)) canvas ++
               [PaintBaseLayerContent (m_page (tile w));
                Canvas (snap_texture s) Restore;
                ProducerUpdate (snap_texture s) (producerInfo T)] |}).
Proof.
  intros HT. unfold paintBitmap_render. unfold_monad. simpl. rewrite HT.
  rewrite Z.gtb_ltb.
  destruct (negb (owner T =? this)%N || (1 <? usedLevel T)); simpl.
  - now rewrite <- ?app_assoc.
  - unfold paint_canvas.
    destruct (paintBaseLayerContent _ _ _) as [pictureCount e]. simpl.
    now rewrite <- ?app_assoc.
Qed.

Lemma paintBitmap_commit_run (g : Z) (w : World) :
  paintBitmap_commit g w =
  Some (tt, {| tile :=
                 (if m_lastDirtyPicture (tile w) <=? g
                  then set_dirty false (set_lastPaintedPicture g (tile w))
                  else set_lastPaintedPicture g (tile w));
               textures := textures w; ext := ext w; trace := trace w |}).
Proof.
  unfold paintBitmap_commit. unfold_monad. simpl. rewrite Z.geb_leb.
  destruct (m_lastDirtyPicture (tile w) <=? g); reflexivity.
Qed.

Lemma revalidation_fails this T :
  owner T <> this \/ 1 < usedLevel T <->
  negb (owner T =? this)%N || (1 <? usedLevel T) = true.
Proof.
  rewrite orb_true_iff, negb_true_iff, N.eqb_neq, Z.ltb_lt. tauto.
Qed.

Lemma revalidation_passes this T :
  owner T = this /\ usedLevel T <= 1 <->
  negb (owner T =? this)%N || (1 <? usedLevel T) = false.
Proof.
  rewrite orb_false_iff, negb_false_iff, N.eqb_eq, Z.ltb_ge. tauto.
Qed.

Lemma paintBitmap_due (this : ptr) (w : World) :
  m_dirty (tile w) = true ->
  m_texture (tile w) <> 0%N ->
  paintBitmap this w =
  match paintBitmap_render this
          {| snap_dirty := true; snap_texture := m_texture (tile w);
             snap_scale := m_scale (tile w) |} w with
  | Some (Some pictureCount, w') => paintBitmap_commit pictureCount w'
  | Some (None, w') => Some (tt, w')
  | None => None
  end.
Proof.
  intros Hd Hnn. apply is_null_false in Hnn.
  unfold paintBitmap, paintBitmap_snapshot, bind at 1 2, getTile, ret at 1.
  simpl. rewrite Hd, Hnn. simpl. unfold bind, ret.
  destruct (paintBitmap_render _ _ w) as [[[g|] w']|]; reflexivity.
Qed.

(** C6. The exits of [paintBitmap] that do not paint leave the tile as
    it was.  When the snapshot shows a clean tile or no texture, the
    world is unchanged.  When the tile is dirty and holds a texture but
    the check after the producer lock fails (another owner, or a used
    level above 1), the producer lock is taken and released, nothing
    else is called, no field of the tile changes, and the tile is still
    dirty. *)
Theorem paintBitmap_abandoned_changes_nothing (this : ptr) (w : World) :
  (m_dirty (tile w) = false \/ m_texture (tile w) = 0%N ->
   paintBitmap this w = Some (tt, w)) /\
  (forall T,
      m_dirty (tile w) = true ->
      m_texture (tile w) <> 0%N ->
      textures w !! m_texture (tile w) = Some T ->
      owner T <> this \/ 1 < usedLevel T ->
      exists w',
        paintBitmap this w = Some (tt, w') /\
        tile w' = tile w /\
        textures w' = textures w /\
        ext w' = ext w /\
        trace w' = trace w ++ [ProducerLock (m_texture (tile w));
                               ProducerRelease (m_texture (tile w))] /\
        isDirty w' = Some (true, w')).
Proof.
  split; [apply paintBitmap_not_due|].
  intros T Hd Hnn HT Hfail.
  rewrite (paintBitmap_due this w Hd Hnn).
  rewrite (paintBitmap_render_run this (Build_Snapshot true _ _) w T HT).
  apply revalidation_fails in Hfail. rewrite Hfail.
  eexists. split; [reflexivity|]. simpl. rewrite isDirty_run. simpl.
  rewrite Hd. repeat split.
Qed.

(** ** [paintBitmap]: the commit *)

Lemma paintBitmap_interleaved_due
    (this : ptr) (before_render before_commit : M unit) (w : World) :
  m_dirty (tile w) = true ->
  m_texture (tile w) <> 0%N ->
  paintBitmap_interleaved this before_render before_commit w =
  match before_render w with
  | None => None
  | Some (_, w1) =>
      match paintBitmap_render this
              {| snap_dirty := true; snap_texture := m_texture (tile w);
                 snap_scale := m_scale (tile w) |} w1 with
      | Some (Some pictureCount, w2) =>
          match before_commit w2 with
          | Some (_, w3) => paintBitmap_commit pictureCount w3
          | None => None
          end
      | Some (None, w2) => Some (tt, w2)
      | None => None
      end
  end.
Proof.
  intros Hd Hnn. apply is_null_false in Hnn.
  unfold paintBitmap_interleaved, paintBitmap_snapshot, bind at 1 2,
    getTile, ret at 1.
  simpl. rewrite Hd, Hnn. simpl. unfold bind, ret.
  destruct (before_render w) as [[[] w1]|]; [|reflexivity].
  destruct (paintBitmap_render _ _ w1) as [[[g|] w2]|]; reflexivity.
Qed.

Lemma paintBitmap_interleaved_alone (this : ptr) (w : World) :
  paintBitmap_interleaved this (ret tt) (ret tt) w = paintBitmap this w.
Proof.
  unfold paintBitmap_interleaved, paintBitmap, bind, ret.
  destruct (paintBitmap_snapshot w) as [[s w0]|]; [|reflexivity].
  destruct (negb (snap_dirty s) || is_null (snap_texture s)); [reflexivity|].
  destruct (paintBitmap_render this s w0) as [[[g|] w1]|]; reflexivity.
Qed.

(** C2. When the tile is dirty, holds a texture, and that texture is
    owned by this tile with a used level of at most 1, [paintBitmap]
    paints: [m_lastPaintedPicture] becomes the picture count [g] the
    rasterizer returns, [m_dirty] is cleared exactly when
    [g >= m_lastDirtyPicture], and [m_lastDirtyPicture], the texture and
    the scale are kept.  If the GL thread calls [markAsDirty(g')] with
    [g' > g] after the snapshot and before the commit (before or after
    the texture is painted), the commit records [g] and the tile is
    still dirty. *)
Theorem paintBitmap_commits_painted_generation (this : ptr) (w : World) T :
  m_dirty (tile w) = true ->
  m_texture (tile w) <> 0%N ->
  textures w !! m_texture (tile w) = Some T ->
  owner T = this ->
  usedLevel T <= 1 ->
  let g :=
    (paintBaseLayerContent (m_page (tile w))
       (paint_canvas (m_x (tile w)) (m_y (tile w)) (m_scale (tile w))
          (producerInfo T))
       (ext w)).1 in
  (exists w',
      paintBitmap this w = Some (tt, w') /\
      m_lastPaintedPicture (tile w') = g /\
      (m_dirty (tile w') = false <-> m_lastDirtyPicture (tile w) <= g) /\
      m_dirty (tile w') = negb (m_lastDirtyPicture (tile w) <=? g) /\
      m_lastDirtyPicture (tile w') = m_lastDirtyPicture (tile w) /\
      m_texture (tile w') = m_texture (tile w) /\
      m_scale (tile w') = m_scale (tile w)) /\
  (forall g', g < g' ->
      (exists w',
          paintBitmap_interleaved this (ret tt) (markAsDirty g') w
            = Some (tt, w') /\
          m_lastPaintedPicture (tile w') = g /\
          m_lastDirtyPicture (tile w') = g' /\
          m_dirty (tile w') = true) /\
      (exists w',
          paintBitmap_interleaved this (markAsDirty g') (ret tt) w
            = Some (tt, w') /\
          m_lastPaintedPicture (tile w') = g /\
          m_lastDirtyPicture (tile w') = g' /\
          m_dirty (tile w') = true)).
Proof.
  intros Hd Hnn HT Ho Hl g.
  assert (Hpass : negb (owner T =? this)%N || (1 <? usedLevel T) = false)
    by (apply revalidation_passes; auto).
  split; [|intros g' Hg'; split].
  - rewrite (paintBitmap_due this w Hd Hnn).
    rewrite (paintBitmap_render_run this (Build_Snapshot true _ _) w T HT).
    rewrite Hpass. cbv zeta. simpl snap_scale. fold g. cbv beta iota.
    rewrite paintBitmap_commit_run. simpl.
    eexists. split; [reflexivity|]. simpl.
    destruct (Z.leb_spec (m_lastDirtyPicture (tile w)) g); simpl;
      repeat split; auto; try lia; try congruence.
  - rewrite (paintBitmap_interleaved_due this _ _ w Hd Hnn).
    unfold ret at 1.
    rewrite (paintBitmap_render_run this (Build_Snapshot true _ _) w T HT).
    rewrite Hpass. cbv zeta. simpl snap_scale. fold g. cbv beta iota.
    rewrite markAsDirty_run. rewrite paintBitmap_commit_run. simpl.
    eexists. split; [reflexivity|].
    destruct (m_lastPaintedPicture (tile w) <? g'); simpl;
      destruct (Z.leb_spec g' g); simpl; repeat split; auto; lia.
  - rewrite (paintBitmap_interleaved_due this _ _ w Hd Hnn).
    rewrite markAsDirty_run.
    set (t1 := if m_lastPaintedPicture (tile w) <? g' then _ else _).
    assert (Ht1 : m_page t1 = m_page (tile w) /\ m_x t1 = m_x (tile w) /\
                  m_y t1 = m_y (tile w) /\ m_lastDirtyPicture t1 = g' /\
                  m_dirty t1 = true).
    { subst t1. destruct (m_lastPaintedPicture (tile w) <? g'); simpl; auto. }
    destruct Ht1 as (Hp & Hx & Hy & Hld & Hd1). cbv beta iota.
    match goal with
    | |- context [paintBitmap_render ?a ?s ?w1] =>
        rewrite (paintBitmap_render_run a s w1 T HT)
    end.
    rewrite Hpass. cbv zeta. simpl. rewrite Hp, Hx, Hy. fold g.
    cbv beta iota. rewrite paintBitmap_commit_run. simpl.
    eexists. split; [reflexivity|]. rewrite Hld.
    destruct (Z.leb_spec g' g); simpl; repeat split; auto; lia.
Qed.

(** ** The constructor *)

(** C10. A tile is constructed dirty, with both picture counts zero,
    scale [1.0f] and no texture; in any world holding such a tile
    [isDirty()] answers true, [isTileReady()] answers false, and
    [draw()] and [paintBitmap()] return with the world unchanged. *)
Theorem fresh_tile_is_dirty_and_idle
    (page : ptr) (x y : Z) (pool : gmap N BackedDoubleBufferedTexture)
    (e : Ext) (tr : list Event)
    (this : ptr) (transparency : float) (rect : SkRect) :
  let t := BaseTile_new page x y in
  let w := {| tile := t; textures := pool; ext := e; trace := tr |} in
  m_dirty t = true /\
  m_lastDirtyPicture t = 0 /\
  m_lastPaintedPicture t = 0 /\
  m_scale t = S754_finite false 8388608 (-23) /\
  m_scale t = SFone Float.prec Float.emax /\
  m_texture t = 0%N /\
  isDirty w = Some (true, w) /\
  isTileReady this w = Some (false, w) /\
  draw transparency rect w = Some (tt, w) /\
  paintBitmap this w = Some (tt, w).
Proof.
  cbv zeta. repeat apply conj; try reflexivity.
Qed.

(** ** [reserveTexture] *)

(** C5. [reserveTexture()] always completes and makes the tile point
    at the texture the pool returned.  When that texture is not the one
    the tile held (also when it held none), [m_lastPaintedPicture] is
    reset to 0 and [m_dirty] is set, so that afterwards [isDirty()]
    answers true and [isTileReady()] cannot answer true (it answers
    false whenever the new pointer is null or denotes a texture of the
    pool).  When the pool returned the texture the tile held, [m_dirty]
    and both picture counts are kept. *)
Theorem reserveTexture_resets_on_new_texture (this : ptr) (w : World) :
  let texture := (getAvailableTexture this (textures w) (ext w)).1.1 in
  exists w',
    reserveTexture this w = Some (tt, w') /\
    m_texture (tile w') = texture /\
    m_lastDirtyPicture (tile w') = m_lastDirtyPicture (tile w) /\
    (texture <> m_texture (tile w) ->
     m_lastPaintedPicture (tile w') = 0 /\
     m_dirty (tile w') = true /\
     isDirty w' = Some (true, w') /\
     (forall who b w'', isTileReady who w' = Some (b, w'') -> b = false) /\
     (forall who,
         texture = 0%N \/ is_Some (textures w' !! texture) ->
         isTileReady who w' = Some (false, w'))) /\
    (texture = m_texture (tile w) ->
     m_dirty (tile w') = m_dirty (tile w) /\
     m_lastPaintedPicture (tile w') = m_lastPaintedPicture (tile w)).
Proof.
  intros texture. eexists. split; [apply reserveTexture_run|].
  cbv zeta. fold texture.
  assert (Hnew : texture <> m_texture (tile w) ->
                 negb (m_texture (tile w) =? texture)%N = true).
  { intros Hne. apply negb_true_iff, N.eqb_neq. congruence. }
  assert (Hsame : texture = m_texture (tile w) ->
                  negb (m_texture (tile w) =? texture)%N = false).
  { intros He. apply negb_false_iff, N.eqb_eq. congruence. }
  split; [reflexivity|]. split; [|split].
  - simpl. now destruct (negb _).
  - intros Hne. rewrite (Hnew Hne). simpl.
    split; [reflexivity|]. split; [reflexivity|]. split; [reflexivity|].
    split.
    + intros who b w''. apply isTileReady_dirty. reflexivity.
    + intros who [Hnull|[T' HT']].
      * apply isTileReady_null. exact Hnull.
      * destruct (N.eq_dec texture 0%N) as [Hz|Hnz];
          [apply isTileReady_null; exact Hz|].
        rewrite (isTileReady_live who _ T'); [|exact Hnz|exact HT'].
        simpl. now rewrite andb_false_r.
  - intros He. rewrite (Hsame He). simpl. split; reflexivity.
Qed.

(** ** How the calls change the tile *)

Lemma setUsedLevel_tile (level : Z) (w w' : World) :
  setUsedLevel level w = Some (tt, w') -> tile w' = tile w.
Proof.
  unfold setUsedLevel. unfold_monad. simpl.
  destruct (is_null (m_texture (tile w))); [now intros [= <-]|].
  destruct (textures w !! m_texture (tile w)); [|discriminate].
  now intros [= <-].
Qed.

Lemma draw_tile (transparency : float) (rect : SkRect) (w w' : World) :
  draw transparency rect w = Some (tt, w') -> tile w' = tile w.
Proof.
  destruct (N.eq_dec (m_texture (tile w)) 0%N) as [Hz|Hnz].
  - rewrite (draw_null _ _ _ Hz). now intros [= <-].
  - destruct (textures w !! m_texture (tile w)) as [T|] eqn:HT.
    + rewrite (draw_live _ _ _ T Hnz HT). now intros [= <-].
    + unfold draw. unfold_monad. simpl.
      apply is_null_false in Hnz. rewrite Hnz, HT. discriminate.
Qed.

Lemma paintBitmap_render_tile (this : ptr) (s : Snapshot) (w w' : World) r :
  paintBitmap_render this s w = Some (r, w') -> tile w' = tile w.
Proof.
  destruct (textures w !! snap_texture s) as [T|] eqn:HT.
  - rewrite (paintBitmap_render_run this s w T HT).
    destruct (negb _ || _); cbv zeta; now intros [= _ <-].
  - unfold paintBitmap_render. unfold_monad. simpl. rewrite HT. discriminate.
Qed.

(** What a completed [paintBitmap] did to the tile: nothing, or the
    commit of some picture count on a tile that was dirty. *)
Lemma paintBitmap_tile (this : ptr) (w w' : World) :
  paintBitmap this w = Some (tt, w') ->
  tile w' = tile w \/
  (m_dirty (tile w) = true /\
   exists g,
     tile w' =
       if m_lastDirtyPicture (tile w) <=? g
       then set_dirty false (set_lastPaintedPicture g (tile w))
       else set_lastPaintedPicture g (tile w)).
Proof.
  destruct (m_dirty (tile w)) eqn:Hd;
    [|rewrite paintBitmap_not_due by auto; intros [= <-]; now left].
  destruct (N.eq_dec (m_texture (tile w)) 0%N) as [Hz|Hnz];
    [rewrite paintBitmap_not_due by auto; intros [= <-]; now left|].
  rewrite (paintBitmap_due this w Hd Hnz).
  destruct (paintBitmap_render _ _ w) as [[[g|] w1]|] eqn:Hr; [| |discriminate].
  - apply paintBitmap_render_tile in Hr.
    rewrite paintBitmap_commit_run. intros [= <-]. simpl. rewrite Hr.
    right. split; [reflexivity|]. now exists g.
  - apply paintBitmap_render_tile in Hr. intros [= <-]. now left.
Qed.

Lemma gl_call_lastDirtyPicture (this : ptr) (c : GLCall) (w w' : World) :
  gl_call this c w = Some (tt, w') ->
  m_lastDirtyPicture (tile w') =
    match c with
    | MarkAsDirty g => g
    | _ => m_lastDirtyPicture (tile w)
    end.
Proof.
  destruct c; simpl.
  - rewrite reserveTexture_run. intros [= <-]. simpl. now destruct (negb _).
  - rewrite removeTexture_run. now intros [= <-].
  - rewrite setScale_run. intros [= <-]. simpl. now destruct (Float.neq _ _).
  - rewrite markAsDirty_run. intros [= <-]. simpl. now destruct (_ <? _).
  - intros Hc. now rewrite (setUsedLevel_tile _ _ _ Hc).
  - intros Hc. now rewrite (draw_tile _ _ _ _ Hc).
Qed.

Lemma gl_call_keeps_dirty (this : ptr) (c : GLCall) (w w' : World) :
  gl_call this c w = Some (tt, w') ->
  m_dirty (tile w) = true -> m_dirty (tile w') = true.
Proof.
  destruct c; simpl.
  - rewrite reserveTexture_run. intros [= <-]. simpl. now destruct (negb _).
  - rewrite removeTexture_run. now intros [= <-].
  - rewrite setScale_run. intros [= <-]. simpl. now destruct (Float.neq _ _).
  - rewrite markAsDirty_run. intros [= <-]. simpl. now destruct (_ <? _).
  - intros Hc. now rewrite (setUsedLevel_tile _ _ _ Hc).
  - intros Hc. now rewrite (draw_tile _ _ _ _ Hc).
Qed.

Lemma gl_call_dirty_covers (this : ptr) (c : GLCall) (w w' : World) :
  gl_call this c w = Some (tt, w') ->
  dirty_covers (tile w) -> dirty_covers (tile w').
Proof.
  unfold dirty_covers. destruct c; simpl.
  - rewrite reserveTexture_run. intros [= <-]. simpl.
    now destruct (negb _).
  - rewrite removeTexture_run. now intros [= <-].
  - rewrite setScale_run. intros [= <-]. simpl. now destruct (Float.neq _ _).
  - rewrite markAsDirty_run. intros [= <-]. simpl.
    destruct (Z.ltb_spec (m_lastPaintedPicture (tile w)) pictureCount);
      simpl; [reflexivity|lia].
  - intros Hc. now rewrite (setUsedLevel_tile _ _ _ Hc).
  - intros Hc. now rewrite (draw_tile _ _ _ _ Hc).
Qed.

Lemma commit_dirty_covers (g : Z) (t : BaseTile) :
  m_dirty t = true ->
  dirty_covers (if m_lastDirtyPicture t <=? g
                then set_dirty false (set_lastPaintedPicture g t)
                else set_lastPaintedPicture g t).
Proof.
  intros Hd. unfold dirty_covers.
  destruct (Z.leb_spec (m_lastDirtyPicture t) g); simpl; [lia|auto].
Qed.

Lemma call_dirty_covers (this : ptr) (c : Call) (w w' : World) :
  call this c w = Some (tt, w') ->
  dirty_covers (tile w) -> dirty_covers (tile w').
Proof.
  destruct c as [c|]; simpl; [apply gl_call_dirty_covers|].
  intros Hp Hinv. apply paintBitmap_tile in Hp.
  destruct Hp as [->|[Hd [g ->]]]; [exact Hinv|].
  now apply commit_dirty_covers.
Qed.

Lemma reachable_calls (this : ptr) (cs : list Call) (w w' : World) :
  reachable this w -> calls this cs w = Some (tt, w') -> reachable this w'.
Proof.
  revert w. induction cs as [|c cs IH]; intros w Hr; simpl.
  - now intros [= <-].
  - unfold bind. destruct (call this c w) as [[[] w1]|] eqn:Hc; [|discriminate].
    apply IH. exact (reachable_call this w c w1 Hr Hc).
Qed.

Lemma reachable_dirty_covers (this : ptr) (w : World) :
  reachable this w -> dirty_covers (tile w).
Proof.
  induction 1 as [page x y pool e|w c w' _ IH Hc|w pool e _ IH].
  - intros _. reflexivity.
  - exact (call_dirty_covers this c w w' Hc IH).
  - exact IH.
Qed.

(** C1. In every world a tile reaches by [reserveTexture],
    [removeTexture], [setScale], [markAsDirty] and [paintBitmap] (and
    [setUsedLevel] and [draw]) called one after the other, with the rest
    of the program changing the pool and the page in between,
    [m_lastPaintedPicture < m_lastDirtyPicture] implies [m_dirty].  The
    converse is not kept: from such a world a [setScale] to another
    scale, or a [reserveTexture] that gets another texture, reaches a
    world where [m_dirty] is set whatever it was, with
    [m_lastPaintedPicture >= m_lastDirtyPicture] whenever that held for
    the picture counts the call leaves. *)
Theorem dirty_whenever_paint_is_stale (this : ptr) (w : World) :
  reachable this w ->
  (m_lastPaintedPicture (tile w) < m_lastDirtyPicture (tile w) ->
   m_dirty (tile w) = true) /\
  (forall scale,
      Float.neq (m_scale (tile w)) scale = true ->
      exists w',
        setScale scale w = Some (tt, w') /\
        reachable this w' /\
        m_dirty (tile w') = true /\
        m_lastPaintedPicture (tile w') = m_lastPaintedPicture (tile w) /\
        m_lastDirtyPicture (tile w') = m_lastDirtyPicture (tile w)) /\
  ((getAvailableTexture this (textures w) (ext w)).1.1 <> m_texture (tile w) ->
   exists w',
     reserveTexture this w = Some (tt, w') /\
     reachable this w' /\
     m_dirty (tile w') = true /\
     m_lastPaintedPicture (tile w') = 0 /\
     m_lastDirtyPicture (tile w') = m_lastDirtyPicture (tile w)).
Proof.
  intros Hr. split; [exact (reachable_dirty_covers this w Hr)|]. split.
  - intros scale Hs. eexists. split; [apply setScale_run|].
    split.
    + apply (reachable_call this w (OnGL (SetScale scale))); [exact Hr|].
      apply setScale_run.
    + simpl. rewrite Hs. auto.
  - intros Hne. eexists. split; [apply reserveTexture_run|].
    assert (Hnew : negb (m_texture (tile w) =?
                         (getAvailableTexture this (textures w) (ext w)).1.1)%N
                   = true).
    { apply negb_true_iff, N.eqb_neq. congruence. }
    split.
    + apply (reachable_call this w (OnGL ReserveTexture)); [exact Hr|].
      apply reserveTexture_run.
    + cbv zeta. simpl. rewrite Hnew. auto.
Qed.

(** ** [m_lastDirtyPicture] *)

(** C9, as the code has it.  [markAsDirty(g)] leaves [g] in
    [m_lastDirtyPicture], higher or lower than what was there; every
    other call keeps the field.  So a call does not lower the field
    unless it is a [markAsDirty] with a picture count below the stored
    one. *)
Theorem lastDirtyPicture_is_the_last_marked (this : ptr) (c : Call)
    (w w' : World) :
  call this c w = Some (tt, w') ->
  m_lastDirtyPicture (tile w') =
    match c with
    | OnGL (MarkAsDirty g) => g
    | _ => m_lastDirtyPicture (tile w)
    end /\
  ((forall g, c = OnGL (MarkAsDirty g) -> m_lastDirtyPicture (tile w) <= g) ->
   m_lastDirtyPicture (tile w) <= m_lastDirtyPicture (tile w')).
Proof.
  intros Hc.
  assert (Hld : m_lastDirtyPicture (tile w') =
                match c with
                | OnGL (MarkAsDirty g) => g
                | _ => m_lastDirtyPicture (tile w)
                end).
  { destruct c as [c|]; simpl in Hc.
    - rewrite (gl_call_lastDirtyPicture this c w w' Hc). now destruct c.
    - apply paintBitmap_tile in Hc.
      destruct Hc as [->|[_ [g ->]]]; [reflexivity|].
      now destruct (_ <=? _). }
  split; [exact Hld|].
  intros Hup. rewrite Hld.
  destruct c as [[]|]; try lia. now apply Hup.
Qed.

(** ** Runs of [markAsDirty] *)

Lemma highest_exceeds (p g : Z) (gs : list Z) :
  p < highest g gs <-> exists g0, In g0 (g :: gs) /\ p < g0.
Proof.
  unfold highest. induction gs as [|g1 gs IH]; simpl.
  - split; [intros Hp; exists g; auto|].
    intros [g0 [[<-|[]] Hp]]. exact Hp.
  - rewrite Z.max_lt_iff, IH. simpl. split.
    + intros [Hp|[g0 [[<-|Hin] Hp]]];
        [exists g1|exists g|exists g0]; auto.
    + intros [g0 [[<-|[<-|Hin]] Hp]]; [right; exists g|left|right; exists g0];
        auto.
Qed.

Lemma markAsDirty_all_run (gs : list Z) (w : World) :
  exists t',
    markAsDirty_all gs w =
      Some (tt, {| tile := t'; textures := textures w; ext := ext w;
                   trace := trace w |}) /\
    m_lastPaintedPicture t' = m_lastPaintedPicture (tile w) /\
    m_dirty t' =
      m_dirty (tile w) ||
      existsb (fun g => m_lastPaintedPicture (tile w) <? g) gs.
Proof.
  revert w. induction gs as [|g gs IH]; intros w; simpl.
  - exists (tile w). unfold ret. rewrite world_eta, orb_false_r. auto.
  - unfold bind. rewrite markAsDirty_run.
    set (w1 := {| tile := _ |}).
    destruct (IH w1) as (t' & Hrun & Hp & Hd).
    exists t'. split; [exact Hrun|]. subst w1. simpl in Hp, Hd.
    destruct (m_lastPaintedPicture (tile w) <? g); simpl in Hp, Hd;
      rewrite Hp, Hd; simpl; split; auto.
    + now rewrite orb_true_r.
Qed.

(** C4, as the code has it.  A run of [markAsDirty] calls always
    completes and keeps [m_lastPaintedPicture]; afterwards [isDirty()]
    answers true exactly when the tile was dirty before the run or some
    picture count of the run (for a run that is not empty: its highest)
    exceeds [m_lastPaintedPicture].  A freshly constructed tile is dirty,
    so after any such run on it [isDirty()] answers true and
    [m_lastPaintedPicture] is still 0. *)
Theorem markAsDirty_all_dirty (gs : list Z) (w : World) :
  exists w',
    markAsDirty_all gs w = Some (tt, w') /\
    m_lastPaintedPicture (tile w') = m_lastPaintedPicture (tile w) /\
    (isDirty w' = Some (true, w') <->
     m_dirty (tile w) = true \/
     exists g, In g gs /\ m_lastPaintedPicture (tile w) < g) /\
    (forall g gs',
        gs = g :: gs' ->
        (isDirty w' = Some (true, w') <->
         m_dirty (tile w) = true \/
         m_lastPaintedPicture (tile w) < highest g gs')) /\
    (forall page x y,
        tile w = BaseTile_new page x y ->
        isDirty w' = Some (true, w') /\ m_lastPaintedPicture (tile w') = 0).
Proof.
  destruct (markAsDirty_all_run gs w) as (t' & Hrun & Hp & Hd).
  eexists. split; [exact Hrun|]. simpl. split; [exact Hp|].
  assert (Hiff : isDirty {| tile := t'; textures := textures w;
                            ext := ext w; trace := trace w |}
                 = Some (true, {| tile := t'; textures := textures w;
                                  ext := ext w; trace := trace w |}) <->
                 m_dirty (tile w) = true \/
                 exists g, In g gs /\ m_lastPaintedPicture (tile w) < g).
  { rewrite isDirty_run. simpl. rewrite Hd. split.
    - intros [= Hor]. apply orb_true_iff in Hor.
      destruct Hor as [Hor|Hor]; [now left|right].
      apply existsb_exists in Hor. destruct Hor as [g [Hin Hlt]].
      exists g. split; [exact Hin|]. now apply Z.ltb_lt.
    - intros Hor.
      assert (Ht : m_dirty (tile w) ||
                   existsb (fun g => m_lastPaintedPicture (tile w) <? g) gs
                   = true).
      { apply orb_true_iff. destruct Hor as [Hor|[g [Hin Hlt]]];
          [now left|right].
        apply existsb_exists. exists g. split; [exact Hin|].
        now apply Z.ltb_lt. }
      now rewrite Ht. }
  split; [exact Hiff|]. split.
  - intros g gs' ->. rewrite Hiff. now rewrite highest_exceeds.
  - intros page x y Hnew. split.
    + apply Hiff. left. now rewrite Hnew.
    + rewrite Hp, Hnew. reflexivity.
Qed.

(** ** [paintBitmap] against the GL thread *)

Lemma gl_calls_keep (this : ptr) (cs : list GLCall) (w w' : World) :
  gl_calls this cs w = Some (tt, w') ->
  (m_dirty (tile w) = true -> m_dirty (tile w') = true) /\
  (dirty_covers (tile w) -> dirty_covers (tile w')).
Proof.
  revert w. induction cs as [|c cs IH]; intros w; simpl.
  - now intros [= <-].
  - unfold bind. destruct (gl_call this c w) as [[[] w1]|] eqn:Hc;
      [|discriminate].
    intros Hcs. destruct (IH w1 Hcs) as [IHd IHi]. split; intros Hw.
    + apply IHd. exact (gl_call_keeps_dirty this c w w1 Hc Hw).
    + apply IHi. exact (gl_call_dirty_covers this c w w1 Hc Hw).
Qed.

(** X14. Whatever the GL thread calls on the tile while [paintBitmap]
    runs, in the two windows where the producer does not hold the
    tile's mutex (after the snapshot, and while the texture is painted),
    the relation between the picture counts and [m_dirty] is kept: if
    [m_lastPaintedPicture < m_lastDirtyPicture] implied [m_dirty]
    before, it does after. *)
Lemma paintBitmap_interleaved_dirty_covers
    (this : ptr) (cs1 cs2 : list GLCall) (w w' : World) :
  paintBitmap_interleaved this (gl_calls this cs1) (gl_calls this cs2) w
    = Some (tt, w') ->
  dirty_covers (tile w) -> dirty_covers (tile w').
Proof.
  destruct (m_dirty (tile w)) eqn:Hd.
  2: { unfold paintBitmap_interleaved, paintBitmap_snapshot.
       unfold_monad. simpl. rewrite Hd. simpl. now intros [= <-]. }
  destruct (N.eq_dec (m_texture (tile w)) 0%N) as [Hz|Hnz].
  { unfold paintBitmap_interleaved, paintBitmap_snapshot.
    unfold_monad. simpl. rewrite Hd, Hz. simpl. now intros [= <-]. }
  rewrite (paintBitmap_interleaved_due this _ _ w Hd Hnz).
  destruct (gl_calls this cs1 w) as [[[] w1]|] eqn:H1; [|discriminate].
  destruct (gl_calls_keep this cs1 w w1 H1) as [Hd1 Hi1].
  destruct (paintBitmap_render _ _ w1) as [[[g|] w2]|] eqn:Hr;
    [| |discriminate]; apply paintBitmap_render_tile in Hr.
  - destruct (gl_calls this cs2 w2) as [[[] w3]|] eqn:H2; [|discriminate].
    destruct (gl_calls_keep this cs2 w2 w3 H2) as [Hd2 _].
    rewrite paintBitmap_commit_run. intros [= <-] _. simpl.
    apply commit_dirty_covers. apply Hd2. rewrite Hr. now apply Hd1.
  - intros [= <-] Hinv. rewrite Hr. now apply Hi1.
Qed.

(** * Further properties of the methods *)

(** ** What a completed [paintBitmap] was *)

Lemma paintBitmap_cases (this : ptr) (w w' : World) :
  paintBitmap this w = Some (tt, w') ->
  (w' = w /\ (m_dirty (tile w) = false \/ m_texture (tile w) = 0%N)) \/
  (m_dirty (tile w) = true /\ m_texture (tile w) <> 0%N /\
   exists T,
     textures w !! m_texture (tile w) = Some T /\
     (((owner T <> this \/ 1 < usedLevel T) /\
       w' = {| tile := tile w; textures := textures w; ext := ext w;
               trace := trace w ++ [ProducerLock (m_texture (tile w));
                                    ProducerRelease (m_texture (tile w))] |}) \/
      (owner T = this /\ usedLevel T <= 1 /\
       w' = {| tile :=
                 committed
                   (paintBaseLayerContent (m_page (tile w))
                      (paint_canvas (m_x (tile w)) (m_y (tile w))
                         (m_scale (tile w)) (producerInfo T))
                      (ext w)).1
                   (tile w);
               textures := textures w;
               ext :=
                 (paintBaseLayerContent (m_page (tile w))
                    (paint_canvas (m_x (tile w)) (m_y (tile w))
                       (m_scale (tile w)) (producerInfo T))
                    (ext w)).2;
               trace :=
                 trace w ++
                 [ProducerLock (m_texture (tile w))] ++
                 map (Canvas (m_texture (tile w)))
                   (paint_canvas (m_x (tile w)) (m_y (tile w))
                      (m_scale (tile w)) (producerInfo T)) ++
                 [PaintBaseLayerContent (m_page (tile w));
                  Canvas (m_texture (tile w)) Restore;
                  ProducerUpdate (m_texture (tile w)) (producerInfo T)] |}))).
Proof.
  destruct (m_dirty (tile w)) eqn:Hd;
    [|rewrite paintBitmap_not_due by auto; intros [= <-]; left; auto].
  destruct (N.eq_dec (m_texture (tile w)) 0%N) as [Hz|Hnz];
    [rewrite paintBitmap_not_due by auto; intros [= <-]; left; auto|].
  rewrite (paintBitmap_due this w Hd Hnz).
  destruct (textures w !! m_texture (tile w)) as [T|] eqn:HT.
  - rewrite (paintBitmap_render_run this (Build_Snapshot true _ _) w T HT).
    destruct (negb (owner T =? this)%N || (1 <? usedLevel T)) eqn:Hv.
    + intros [= <-]. right. split; [reflexivity|]. split; [exact Hnz|].
      exists T. split; [reflexivity|]. left.
      split; [now apply revalidation_fails|reflexivity].
    + cbv zeta. cbv beta iota. rewrite paintBitmap_commit_run.
      intros [= <-]. right. split; [reflexivity|]. split; [exact Hnz|].
      exists T. split; [reflexivity|]. right.
      apply revalidation_passes in Hv. destruct Hv as [Ho Hl].
      split; [exact Ho|]. split; [exact Hl|]. reflexivity.
  - unfold paintBitmap_render. unfold_monad. simpl. rewrite HT. discriminate.
Qed.

Lemma committed_fields (g : Z) (t : BaseTile) :
  m_page (committed g t) = m_page t /\
  m_x (committed g t) = m_x t /\
  m_y (committed g t) = m_y t /\
  m_texture (committed g t) = m_texture t /\
  m_scale (committed g t) = m_scale t /\
  m_lastDirtyPicture (committed g t) = m_lastDirtyPicture t /\
  m_lastPaintedPicture (committed g t) = g /\
  m_dirty (committed g t) = m_dirty t && negb (m_lastDirtyPicture t <=? g).
Proof.
  unfold committed. destruct (m_lastDirtyPicture t <=? g); simpl;
    rewrite ?andb_false_r, ?andb_true_r; repeat apply conj; reflexivity.
Qed.


(** X2. [paintBitmap] calls the canvas, the rasterizer or
    [producerUpdate] only for a tile that is dirty and whose texture,
    seen after the producer lock, is owned by this tile with a used
    level of at most 1: a run whose stretch of the trace holds such a
    call started in such a world. *)
Theorem paintBitmap_paints_only_its_own_texture
    (this : ptr) (w w' : World) (evs : list Event) (e : Event) :
  paintBitmap this w = Some (tt, w') ->
  trace w' = trace w ++ evs ->
  In e evs ->
  is_paint e = true ->
  m_dirty (tile w) = true /\
  m_texture (tile w) <> 0%N /\
  exists T,
    textures w !! m_texture (tile w) = Some T /\
    owner T = this /\ usedLevel T <= 1.
Proof.
  intros Hp Htr Hin He. apply paintBitmap_cases in Hp.
  destruct Hp as [[-> _]|(Hd & Hnz & T & HT & [[_ ->]|(Ho & Hl & ->)])].
  - rewrite <- (app_nil_r (trace w)) in Htr at 1.
    apply app_inv_head in Htr. subst evs. destruct Hin.
  - simpl in Htr. apply app_inv_head in Htr. subst evs.
    destruct Hin as [<-|[<-|[]]]; discriminate.
  - split; [exact Hd|]. split; [exact Hnz|]. exists T. auto.
Qed.

(** ** The order of the calls on the textures *)

Lemma lock_run_app (l : Locks) (a b : list Event) :
  lock_run l (a ++ b) =
  match lock_run l a with
  | Some l' => lock_run l' b
  | None => None
  end.
Proof.
  revert l. induction a as [|e a IH]; intros l; simpl; [reflexivity|].
  destruct (lock_step l e); [apply IH|reflexivity].
Qed.

Lemma setUsedLevel_trace (level : Z) (w w' : World) :
  setUsedLevel level w = Some (tt, w') -> trace w' = trace w.
Proof.
  unfold setUsedLevel. unfold_monad. simpl.
  destruct (is_null (m_texture (tile w))); [now intros [= <-]|].
  destruct (textures w !! m_texture (tile w)); [|discriminate].
  now intros [= <-].
Qed.

Lemma draw_paired (transparency : float) (rect : SkRect) (w w' : World) :
  draw transparency rect w = Some (tt, w') ->
  exists evs,
    trace w' = trace w ++ evs /\ lock_run no_locks evs = Some no_locks.
Proof.
  destruct (N.eq_dec (m_texture (tile w)) 0%N) as [Hz|Hnz].
  - rewrite (draw_null _ _ _ Hz). intros [= <-].
    exists []. now rewrite app_nil_r.
  - destruct (textures w !! m_texture (tile w)) as [T|] eqn:HT.
    + rewrite (draw_live _ _ _ T Hnz HT). intros [= <-]. simpl.
      eexists. split; [reflexivity|].
      destruct (consumerInfo T) as [info|];
        [destruct (m_lastPaintedPicture (tile w) =? 0)|];
        simpl; repeat (rewrite N.eqb_refl; simpl); reflexivity.
    + unfold draw. unfold_monad. simpl.
      apply is_null_false in Hnz. rewrite Hnz, HT. discriminate.
Qed.

Lemma paintBitmap_paired (this : ptr) (w w' : World) :
  paintBitmap this w = Some (tt, w') ->
  exists evs,
    trace w' = trace w ++ evs /\ lock_run no_locks evs = Some no_locks.
Proof.
  intros Hp. apply paintBitmap_cases in Hp.
  destruct Hp as [[-> _]|(_ & _ & T & _ & [[_ ->]|(_ & _ & ->)])].
  - exists []. now rewrite app_nil_r.
  - simpl. eexists. split; [reflexivity|]. simpl.
    repeat (rewrite N.eqb_refl; simpl). reflexivity.
  - simpl. eexists. split; [reflexivity|].
    unfold paint_canvas. simpl. repeat (rewrite N.eqb_refl; simpl).
    reflexivity.
Qed.

Lemma call_paired (this : ptr) (c : Call) (w w' : World) :
  call this c w = Some (tt, w') ->
  exists evs,
    trace w' = trace w ++ evs /\ lock_run no_locks evs = Some no_locks.
Proof.
  destruct c as [[| |scale|g|level|transparency rect]|]; simpl.
  - rewrite reserveTexture_run. intros [= <-]. simpl.
    eexists. split; reflexivity.
  - rewrite removeTexture_run. intros [= <-]. simpl.
    exists []. now rewrite app_nil_r.
  - rewrite setScale_run. intros [= <-]. simpl.
    exists []. now rewrite app_nil_r.
  - rewrite markAsDirty_run. intros [= <-]. simpl.
    exists []. now rewrite app_nil_r.
  - intros Hc. rewrite (setUsedLevel_trace _ _ _ Hc).
    exists []. now rewrite app_nil_r.
  - apply draw_paired.
  - apply paintBitmap_paired.
Qed.

(** X3. Over every run of method calls that completes, the trace only
    grows, and the stretch the run adds keeps the order of the texture
    calls: each [consumerLock] is given back by a [consumerRelease] of
    the same texture and each [producerLock] by one [producerRelease] or
    [producerUpdate] of the same texture before the method returns, a
    quad is submitted only between a consumer lock and its release, the
    canvas and the rasterizer are called only between a producer lock
    and its release, on the locked texture, and no lock is held when
    the run ends. *)
Theorem calls_pair_their_locks (this : ptr) (cs : list Call) (w w' : World) :
  calls this cs w = Some (tt, w') ->
  exists evs,
    trace w' = trace w ++ evs /\ lock_run no_locks evs = Some no_locks.
Proof.
  revert w. induction cs as [|c cs IH]; intros w; simpl.
  - intros [= <-]. exists []. now rewrite app_nil_r.
  - unfold bind. destruct (call this c w) as [[[] w1]|] eqn:Hc; [|discriminate].
    intros Hcs.
    destruct (call_paired this c w w1 Hc) as (evs1 & Ht1 & Hl1).
    destruct (IH w1 Hcs) as (evs2 & Ht2 & Hl2).
    exists (evs1 ++ evs2). split.
    + now rewrite Ht2, Ht1, app_assoc.
    + now rewrite lock_run_app, Hl1.
Qed.

(** ** The fields no method writes *)

Lemma gl_call_identity (this : ptr) (c : GLCall) (w w' : World) :
  gl_call this c w = Some (tt, w') ->
  m_page (tile w') = m_page (tile w) /\
  m_x (tile w') = m_x (tile w) /\
  m_y (tile w') = m_y (tile w).
Proof.
  destruct c; simpl.
  - rewrite reserveTexture_run. intros [= <-]. simpl. now destruct (negb _).
  - rewrite removeTexture_run. now intros [= <-].
  - rewrite setScale_run. intros [= <-]. simpl. now destruct (Float.neq _ _).
  - rewrite markAsDirty_run. intros [= <-]. simpl. now destruct (_ <? _).
  - intros Hc. now rewrite (setUsedLevel_tile _ _ _ Hc).
  - intros Hc. now rewrite (draw_tile _ _ _ _ Hc).
Qed.

Lemma call_identity (this : ptr) (c : Call) (w w' : World) :
  call this c w = Some (tt, w') ->
  m_page (tile w') = m_page (tile w) /\
  m_x (tile w') = m_x (tile w) /\
  m_y (tile w') = m_y (tile w).
Proof.
  destruct c as [c|]; simpl; [apply gl_call_identity|].
  intros Hp. apply paintBitmap_tile in Hp.
  destruct Hp as [->|[_ [g ->]]]; [auto|].
  now destruct (_ <=? _).
Qed.

(** X4. The page and the grid coordinates a tile was constructed with
    are never written again: after every run of method calls that
    completes, [m_page], [m_x] and [m_y] are what they were. *)
Theorem calls_keep_identity (this : ptr) (cs : list Call) (w w' : World) :
  calls this cs w = Some (tt, w') ->
  m_page (tile w') = m_page (tile w) /\
  m_x (tile w') = m_x (tile w) /\
  m_y (tile w') = m_y (tile w).
Proof.
  revert w. induction cs as [|c cs IH]; intros w; simpl.
  - now intros [= <-].
  - unfold bind. destruct (call this c w) as [[[] w1]|] eqn:Hc; [|discriminate].
    intros Hcs. destruct (call_identity this c w w1 Hc) as (Hp & Hx & Hy).
    destruct (IH w1 Hcs) as (Hp' & Hx' & Hy').
    rewrite Hp', Hx', Hy'. auto.
Qed.

(** ** [removeTexture] and [reserveTexture] *)

(** X5. [removeTexture()] only forgets the texture: the tile's pointer
    becomes null while [m_dirty], both picture counts, the scale, the
    pool (the texture's recorded owner and used level included) and the
    trace stay.  On the tile it leaves, [paintBitmap], [draw] and
    [setUsedLevel] return without doing anything and [isTileReady]
    answers false. *)
Theorem removeTexture_detaches_the_tile (w : World) :
  exists w',
    removeTexture w = Some (tt, w') /\
    m_texture (tile w') = 0%N /\
    m_dirty (tile w') = m_dirty (tile w) /\
    m_lastDirtyPicture (tile w') = m_lastDirtyPicture (tile w) /\
    m_lastPaintedPicture (tile w') = m_lastPaintedPicture (tile w) /\
    m_scale (tile w') = m_scale (tile w) /\
    textures w' = textures w /\ ext w' = ext w /\ trace w' = trace w /\
    (forall this transparency rect level,
        paintBitmap this w' = Some (tt, w') /\
        draw transparency rect w' = Some (tt, w') /\
        setUsedLevel level w' = Some (tt, w') /\
        isTileReady this w' = Some (false, w')).
Proof.
  eexists. split; [apply removeTexture_run|]. simpl.
  repeat apply conj; try reflexivity.
  intros this transparency rect level. repeat apply conj.
  - apply paintBitmap_not_due. now right.
  - now apply draw_null.
  - reflexivity.
  - now apply isTileReady_null.
Qed.

(** X6. A texture taken away and handed back is painted from scratch:
    [removeTexture()] followed by [reserveTexture()] always completes,
    and when the pool returns any texture, even the one the tile held
    before, [m_lastPaintedPicture] is 0 and [m_dirty] is set; when the
    pool returns none, [m_dirty] and [m_lastPaintedPicture] are kept.
    [m_lastDirtyPicture] is kept either way. *)
Theorem removeTexture_then_reserveTexture (this : ptr) (w : World) :
  let texture := (getAvailableTexture this (textures w) (ext w)).1.1 in
  exists w',
    bind removeTexture (fun _ => reserveTexture this) w = Some (tt, w') /\
    m_texture (tile w') = texture /\
    m_lastDirtyPicture (tile w') = m_lastDirtyPicture (tile w) /\
    (texture <> 0%N ->
     m_lastPaintedPicture (tile w') = 0 /\ m_dirty (tile w') = true) /\
    (texture = 0%N ->
     m_lastPaintedPicture (tile w') = m_lastPaintedPicture (tile w) /\
     m_dirty (tile w') = m_dirty (tile w)).
Proof.
  intros texture. unfold bind. rewrite removeTexture_run.
  rewrite reserveTexture_run. eexists. split; [reflexivity|].
  cbv zeta. simpl. fold texture. clearbody texture.
  destruct texture as [|p]; simpl.
  - split; [reflexivity|]. split; [reflexivity|]. split.
    + intros Hnz. congruence.
    + intros _. split; reflexivity.
  - split; [reflexivity|]. split; [reflexivity|]. split.
    + intros _. split; reflexivity.
    + intros Hz. discriminate.
Qed.

(** ** [setScale] *)

Lemma neq_nan_absorbs (m s : float) :
  Float.neq s s = true -> Float.neq m s = true.
Proof.
  unfold Float.neq, SFeqb.
  destruct s as [b|b| |b mant e]; simpl.
  - discriminate.
  - destruct b; discriminate.
  - intros _. now destruct m.
  - rewrite Z.compare_refl, Pos.compare_cont_refl. destruct b; discriminate.
Qed.

(** X7. [setScale(scale)] always completes, stores [scale], sets
    [m_dirty] exactly when the stored scale compares unequal to it (as
    [float]s do: a NaN is unequal to every scale, itself included) and
    never clears it; it touches nothing else.  Calling it twice with
    the same scale is the same as calling it once. *)
Theorem setScale_dirties_on_change (scale : float) (w : World) :
  exists w',
    setScale scale w = Some (tt, w') /\
    m_scale (tile w') = scale /\
    m_dirty (tile w') =
      m_dirty (tile w) || Float.neq (m_scale (tile w)) scale /\
    (scale = S754_nan -> m_dirty (tile w') = true) /\
    m_texture (tile w') = m_texture (tile w) /\
    m_lastDirtyPicture (tile w') = m_lastDirtyPicture (tile w) /\
    m_lastPaintedPicture (tile w') = m_lastPaintedPicture (tile w) /\
    textures w' = textures w /\ ext w' = ext w /\ trace w' = trace w /\
    setScale scale w' = Some (tt, w').
Proof.
  eexists. split; [apply setScale_run|].
  cbn [tile textures ext trace].
  destruct (Float.neq (m_scale (tile w)) scale) eqn:Hn.
  - rewrite orb_true_r. repeat apply conj; try reflexivity.
    rewrite setScale_run. simpl.
    now destruct (Float.neq scale scale).
  - rewrite orb_false_r. repeat apply conj; try reflexivity.
    + intros ->. now destruct (m_scale (tile w)).
    + rewrite setScale_run. simpl.
      destruct (Float.neq scale scale) eqn:Hself; [|reflexivity].
      rewrite (neq_nan_absorbs (m_scale (tile w)) scale Hself) in Hn.
      discriminate.
Qed.

(** ** [setUsedLevel] and the destructor *)


(** X9. A used level above 1 keeps the producer away: after
    [setUsedLevel(level)] with [level > 1] on a dirty tile that holds a
    texture of the pool, [paintBitmap] takes and releases the producer
    lock and leaves the tile as it was, its owner notwithstanding. *)
Theorem setUsedLevel_above_one_blocks_paint
    (this : ptr) (level : Z) (w : World) T :
  m_dirty (tile w) = true ->
  m_texture (tile w) <> 0%N ->
  textures w !! m_texture (tile w) = Some T ->
  1 < level ->
  exists w',
    bind (setUsedLevel level) (fun _ => paintBitmap this) w = Some (tt, w') /\
    tile w' = tile w /\
    ext w' = ext w /\
    trace w' = trace w ++ [ProducerLock (m_texture (tile w));
                           ProducerRelease (m_texture (tile w))].
Proof.
  intros Hd Hnz HT Hl. unfold bind.
  assert (Hs : setUsedLevel level w =
               Some (tt, {| tile := tile w;
                            textures := <[m_texture (tile w) :=
                                            set_usedLevel level T]> (textures w);
                            ext := ext w; trace := trace w |})).
  { unfold setUsedLevel. unfold_monad. simpl.
    apply is_null_false in Hnz. now rewrite Hnz, HT. }
  rewrite Hs.
  set (w1 := {| tile := tile w |}).
  rewrite (paintBitmap_due this w1 Hd Hnz).
  assert (HT1 : textures w1 !! m_texture (tile w) = Some (set_usedLevel level T))
    by apply lookup_insert_eq.
  rewrite (paintBitmap_render_run this (Build_Snapshot true _ _) w1 _ HT1).
  assert (Hfail : negb (owner (set_usedLevel level T) =? this)%N
                  || (1 <? usedLevel (set_usedLevel level T)) = true).
  { apply revalidation_fails. right. exact Hl. }
  rewrite Hfail. eexists. split; [reflexivity|]. simpl. auto.
Qed.

(** ** Ready tiles and painted tiles *)

(** X10. A tile that answers ready is one that can be shown as it is:
    [isTileReady()] answers true only in a world it leaves unchanged
    where the tile holds a texture of the pool, that texture records
    this tile as its owner, and the tile is not dirty. *)
Theorem isTileReady_true_means_owned_and_clean (this : ptr) (w w' : World) :
  isTileReady this w = Some (true, w') ->
  w' = w /\
  m_dirty (tile w) = false /\
  m_texture (tile w) <> 0%N /\
  exists T, textures w !! m_texture (tile w) = Some T /\ owner T = this.
Proof.
  destruct (N.eq_dec (m_texture (tile w)) 0%N) as [Hz|Hnz];
    [rewrite (isTileReady_null this w Hz); discriminate|].
  destruct (textures w !! m_texture (tile w)) as [T|] eqn:HT.
  - rewrite (isTileReady_live this w T Hnz HT). intros [= Hb <-].
    apply andb_true_iff in Hb. destruct Hb as [Ho Hd].
    apply N.eqb_eq in Ho. apply negb_true_iff in Hd.
    split; [reflexivity|]. split; [exact Hd|]. split; [exact Hnz|].
    now exists T.
  - unfold isTileReady. unfold_monad. simpl.
    apply is_null_false in Hnz. rewrite Hnz, HT. discriminate.
Qed.

Lemma paintBitmap_paints (this : ptr) (w : World) T :
  m_dirty (tile w) = true ->
  m_texture (tile w) <> 0%N ->
  textures w !! m_texture (tile w) = Some T ->
  owner T = this ->
  usedLevel T <= 1 ->
  paintBitmap this w =
  Some (tt,
        {| tile :=
             committed
               (paintBaseLayerContent (m_page (tile w))
                  (paint_canvas (m_x (tile w)) (m_y (tile w))
                     (m_scale (tile w)) (producerInfo T))
                  (ext w)).1
               (tile w);
           textures := textures w;
           ext :=
             (paintBaseLayerContent (m_page (tile w))
                (paint_canvas (m_x (tile w)) (m_y (tile w))
                   (m_scale (tile w)) (producerInfo T))
                (ext w)).2;
           trace :=
             trace w ++
             [ProducerLock (m_texture (tile w))] ++
             map (Canvas (m_texture (tile w)))
               (paint_canvas (m_x (tile w)) (m_y (tile w))
                  (m_scale (tile w)) (producerInfo T)) ++
             [PaintBaseLayerContent (m_page (tile w));
              Canvas (m_texture (tile w)) Restore;
              ProducerUpdate (m_texture (tile w)) (producerInfo T)] |}).
Proof.
  intros Hd Hnz HT Ho Hl.
  rewrite (paintBitmap_due this w Hd Hnz).
  rewrite (paintBitmap_render_run this (Build_Snapshot true _ _) w T HT).
  assert (Hpass : negb (owner T =? this)%N || (1 <? usedLevel T) = false)
    by (apply revalidation_passes; auto).
  rewrite Hpass. cbv zeta. cbv beta iota.
  now rewrite paintBitmap_commit_run.
Qed.

(** X11. A paint that catches up makes the tile ready and ends the
    producer's work on it: when a dirty tile holds a texture it owns,
    with a used level of at most 1, and the rasterizer's picture count
    is not below [m_lastDirtyPicture], then after [paintBitmap] the
    tile answers [isTileReady()] true and a second [paintBitmap]
    returns without a call on the texture or the rasterizer. *)
Theorem paintBitmap_catching_up_makes_ready (this : ptr) (w : World) T :
  m_dirty (tile w) = true ->
  m_texture (tile w) <> 0%N ->
  textures w !! m_texture (tile w) = Some T ->
  owner T = this ->
  usedLevel T <= 1 ->
  m_lastDirtyPicture (tile w) <=
    (paintBaseLayerContent (m_page (tile w))
       (paint_canvas (m_x (tile w)) (m_y (tile w)) (m_scale (tile w))
          (producerInfo T))
       (ext w)).1 ->
  exists w',
    paintBitmap this w = Some (tt, w') /\
    isDirty w' = Some (false, w') /\
    isTileReady this w' = Some (true, w') /\
    paintBitmap this w' = Some (tt, w') /\
    bind (paintBitmap this) (fun _ => paintBitmap this) w
      = paintBitmap this w.
Proof.
  intros Hd Hnz HT Ho Hl Hg.
  pose proof (paintBitmap_paints this w T Hd Hnz HT Ho Hl) as Hrun.
  set (w1 := {| tile := committed _ (tile w) |}) in Hrun.
  assert (Hclean : m_dirty (tile w1) = false).
  { subst w1. simpl. unfold committed.
    apply Z.leb_le in Hg. now rewrite Hg. }
  assert (Htex : m_texture (tile w1) = m_texture (tile w)).
  { subst w1. simpl. apply committed_fields. }
  assert (Hidle : paintBitmap this w1 = Some (tt, w1))
    by (apply paintBitmap_not_due; now left).
  exists w1. split; [exact Hrun|]. split; [|split; [|split]].
  - rewrite isDirty_run. now rewrite Hclean.
  - rewrite (isTileReady_live this w1 T); rewrite ?Htex; auto.
    apply N.eqb_eq in Ho. now rewrite Ho, Hclean.
  - exact Hidle.
  - unfold bind. rewrite Hrun. exact Hidle.
Qed.

(** X12. Picture count 0 reads as never painted.  When the paint of the
    previous property reports picture count 0 (so [m_lastDirtyPicture]
    is at most 0), the painted tile answers [isTileReady()] true, yet
    [draw] on it locks and releases the consumer side without
    submitting a quad. *)
Theorem painted_at_count_zero_is_ready_but_not_drawn
    (this : ptr) (w : World) T (transparency : float) (rect : SkRect) :
  m_dirty (tile w) = true ->
  m_texture (tile w) <> 0%N ->
  textures w !! m_texture (tile w) = Some T ->
  owner T = this ->
  usedLevel T <= 1 ->
  m_lastDirtyPicture (tile w) <= 0 ->
  (paintBaseLayerContent (m_page (tile w))
     (paint_canvas (m_x (tile w)) (m_y (tile w)) (m_scale (tile w))
        (producerInfo T))
     (ext w)).1 = 0 ->
  exists w',
    paintBitmap this w = Some (tt, w') /\
    isTileReady this w' = Some (true, w') /\
    draw transparency rect w' =
      Some (tt, {| tile := tile w'; textures := textures w'; ext := ext w';
                   trace := trace w' ++
                            [ConsumerLock (m_texture (tile w));
                             ConsumerRelease (m_texture (tile w))] |}).
Proof.
  intros Hd Hnz HT Ho Hl Hld Hg.
  pose proof (paintBitmap_paints this w T Hd Hnz HT Ho Hl) as Hrun.
  rewrite Hg in Hrun.
  set (w1 := {| tile := committed 0 (tile w) |}) in Hrun.
  assert (Hf : m_dirty (tile w1) = false /\
               m_texture (tile w1) = m_texture (tile w) /\
               m_lastPaintedPicture (tile w1) = 0).
  { subst w1. simpl. unfold committed.
    apply Z.leb_le in Hld. now rewrite Hld. }
  destruct Hf as (Hclean & Htex & Hp).
  exists w1. split; [exact Hrun|]. split.
  - rewrite (isTileReady_live this w1 T); rewrite ?Htex; auto.
    apply N.eqb_eq in Ho. now rewrite Ho, Hclean.
  - rewrite (draw_live transparency rect w1 T); rewrite ?Htex; auto.
    rewrite Hp. simpl. now destruct (consumerInfo T).
Qed.

(** ** A change of scale while the tile is painted *)


(** X15. [paintBitmap] checks the texture as it is after the producer
    lock, not as it was at the snapshot.  Whatever the GL thread did to
    the tile and the pool after the snapshot, if the texture of the
    snapshot then records another owner or a used level above 1, the
    paint is abandoned: the producer lock on that texture is taken and
    released, the tile, the pool and the page are left as the GL thread
    left them, and nothing is committed. *)
Theorem paintBitmap_checks_the_texture_after_the_lock
    (this : ptr) (before_render before_commit : M unit) (w w1 : World) T1 :
  m_dirty (tile w) = true ->
  m_texture (tile w) <> 0%N ->
  before_render w = Some (tt, w1) ->
  textures w1 !! m_texture (tile w) = Some T1 ->
  owner T1 <> this \/ 1 < usedLevel T1 ->
  paintBitmap_interleaved this before_render before_commit w =
  Some (tt, {| tile := tile w1; textures := textures w1; ext := ext w1;
               trace := trace w1 ++ [ProducerLock (m_texture (tile w));
                                     ProducerRelease (m_texture (tile w))] |}).
Proof.
  intros Hd Hnz H1 HT1 Hfail.
  rewrite (paintBitmap_interleaved_due this _ _ w Hd Hnz). rewrite H1.
  rewrite (paintBitmap_render_run this (Build_Snapshot true _ _) w1 T1 HT1).
  apply revalidation_fails in Hfail. now rewrite Hfail.
Qed.

End TileProperties.

(** * The methods on sample worlds *)

Example painted_world_is_clean :
  tile (painted_world 5) = sample_tile 7%N false 5 5.
Proof. vm_compute. reflexivity. Qed.

Lemma fresh_world_reachable (pictures : Z) :
  reachable 5%N (fresh_world pictures).
Proof. apply reachable_new. Qed.

Lemma painted_world_reachable : reachable 5%N (painted_world 5).
Proof.
  apply (reachable_calls 5%N
           [OnGL ReserveTexture; OnGL (MarkAsDirty 5); PaintBitmap]
           (fresh_world 5)).
  - apply fresh_world_reachable.
  - vm_compute. reflexivity.
Qed.

(** The tile painted at picture count 0 and then stripped of its
    texture: clean, with both picture counts 0. *)
Lemma stripped_world_reachable :
  reachable 5%N (sample_run [OnGL RemoveTexture] (painted_world 0)).
Proof.
  apply (reachable_calls 5%N
           [OnGL ReserveTexture; OnGL (MarkAsDirty 0); PaintBitmap;
            OnGL RemoveTexture]
           (fresh_world 0)).
  - apply fresh_world_reachable.
  - vm_compute. reflexivity.
Qed.

(** C1 on sample worlds: the painted tile is clean with both picture
    counts 5, and a change of scale makes it dirty with the counts
    kept; the tile painted at count 0 and stripped of its texture is
    clean, and reserving a texture again makes it dirty with both
    counts 0. *)
Lemma dirty_whenever_paint_is_stale_witness :
  (reachable 5%N (painted_world 5) /\
   m_dirty (tile (painted_world 5)) = false /\
   exists w',
     setScale (Float.of_int 2) (painted_world 5) = Some (tt, w') /\
     reachable 5%N w' /\
     m_dirty (tile w') = true /\
     m_lastPaintedPicture (tile w') = 5 /\
     m_lastDirtyPicture (tile w') = 5) /\
  (reachable 5%N (sample_run [OnGL RemoveTexture] (painted_world 0)) /\
   m_dirty (tile (sample_run [OnGL RemoveTexture] (painted_world 0))) = false /\
   exists w',
     reserveTexture 5%N (sample_run [OnGL RemoveTexture] (painted_world 0))
       = Some (tt, w') /\
     reachable 5%N w' /\
     m_dirty (tile w') = true /\
     m_lastPaintedPicture (tile w') = 0 /\
     m_lastDirtyPicture (tile w') = 0).
Proof.
  split.
  - split; [exact painted_world_reachable|]. split; [reflexivity|].
    destruct (dirty_whenever_paint_is_stale 5%N (painted_world 5)
                painted_world_reachable) as (_ & Hscale & _).
    exact (Hscale (Float.of_int 2) eq_refl).
  - split; [exact stripped_world_reachable|]. split; [reflexivity|].
    destruct (dirty_whenever_paint_is_stale 5%N _ stripped_world_reachable)
      as (_ & _ & Hreserve).
    apply Hreserve. vm_compute. discriminate.
Defined.

(** C2 on a sample world: a dirty tile invalidated at picture count 5,
    painted while the page is at count 5, becomes clean with painted
    count 5; with [markAsDirty(9)] arriving before the commit it stays
    dirty. *)
Lemma paintBitmap_commits_painted_generation_witness :
  let w := sample_world (sample_tile 7%N true 5 0) (sample_texture 5%N 0 true) 5 in
  (exists w',
      paintBitmap 5%N w = Some (tt, w') /\
      m_lastPaintedPicture (tile w') = 5 /\
      m_dirty (tile w') = false) /\
  (exists w',
      paintBitmap_interleaved 5%N (ret tt) (markAsDirty 9) w = Some (tt, w') /\
      m_lastPaintedPicture (tile w') = 5 /\
      m_lastDirtyPicture (tile w') = 9 /\
      m_dirty (tile w') = true).
Proof.
  intros w.
  assert (Hd : m_dirty (tile w) = true) by reflexivity.
  assert (Hnn : m_texture (tile w) <> 0%N) by discriminate.
  assert (HT : textures w !! m_texture (tile w) = Some (sample_texture 5%N 0 true))
    by reflexivity.
  assert (Hl : usedLevel (sample_texture 5%N 0 true) <= 1) by (simpl; lia).
  destruct (paintBitmap_commits_painted_generation 5%N w
              (sample_texture 5%N 0 true) Hd Hnn HT eq_refl Hl)
    as [(w' & Hrun & Hp & _ & Hdirty & _) Hrace].
  split.
  - exists w'. split; [exact Hrun|]. split; [exact Hp|exact Hdirty].
  - destruct (Hrace 9) as [Hafter _]; [simpl; lia|]. exact Hafter.
Defined.

(** C3 on a sample world: [markAsDirty(3)] on a dirty tile painted at
    picture count 5 stores 3 and leaves the tile dirty. *)
Lemma markAsDirty_overwrites_and_only_sets_witness :
  let w := sample_world (sample_tile 7%N true 5 5) (sample_texture 5%N 0 true) 5 in
  exists w',
    markAsDirty 3 w = Some (tt, w') /\
    m_lastDirtyPicture (tile w') = 3 /\
    m_dirty (tile w') = true.
Proof.
  intros w.
  destruct (markAsDirty_overwrites_and_only_sets 3 w)
    as (w' & Hrun & Hld & _ & Hkeep & _).
  exists w'. split; [exact Hrun|]. split; [exact Hld|].
  apply Hkeep. reflexivity.
Defined.

(** C4 on a sample world: a fresh tile marked dirty at picture counts 5
    and then 3 answers [isDirty()] true, with [m_lastPaintedPicture]
    still 0. *)
Lemma markAsDirty_all_dirty_witness :
  exists w',
    markAsDirty_all [5; 3] (fresh_world 0) = Some (tt, w') /\
    isDirty w' = Some (true, w') /\
    m_lastPaintedPicture (tile w') = 0.
Proof.
  destruct (markAsDirty_all_dirty [5; 3] (fresh_world 0))
    as (w' & Hrun & _ & _ & _ & Hfresh).
  exists w'. split; [exact Hrun|].
  exact (Hfresh 1%N 2 3 eq_refl).
Defined.

(** C4 fails on the code: a fresh tile marked dirty at picture count 0
    answers [isDirty()] true although the highest count seen, 0, does
    not exceed [m_lastPaintedPicture], which is 0. *)
Lemma fresh_tile_dirty_without_newer_picture :
  exists w',
    markAsDirty_all [0] (fresh_world 0) = Some (tt, w') /\
    isDirty w' = Some (true, w') /\
    m_lastPaintedPicture (tile w') = 0 /\
    highest 0 [] = 0 /\
    ~ (isDirty w' = Some (true, w') <->
       m_lastPaintedPicture (tile w') < highest 0 []).
Proof.
  eexists. split; [vm_compute; reflexivity|].
  split; [reflexivity|]. split; [reflexivity|]. split; [reflexivity|].
  intros [Hiff _]. specialize (Hiff eq_refl). simpl in Hiff. lia.
Qed.

(** C9 fails on the code: after [markAsDirty(5)], [markAsDirty(3)]
    lowers [m_lastDirtyPicture] from 5 to 3. *)
Lemma markAsDirty_lowers_lastDirtyPicture :
  exists w5 w3,
    markAsDirty 5 (fresh_world 0) = Some (tt, w5) /\
    markAsDirty 3 w5 = Some (tt, w3) /\
    m_lastDirtyPicture (tile w5) = 5 /\
    m_lastDirtyPicture (tile w3) = 3 /\
    ~ (m_lastDirtyPicture (tile w5) <= m_lastDirtyPicture (tile w3)).
Proof.
  eexists. eexists. split; [vm_compute; reflexivity|].
  split; [vm_compute; reflexivity|].
  split; [reflexivity|]. split; [reflexivity|]. simpl. lia.
Qed.

(** C9 on a sample world: [markAsDirty(7)] on a tile whose
    [m_lastDirtyPicture] is 5 leaves 7 there. *)
Lemma lastDirtyPicture_is_the_last_marked_witness :
  let w := sample_world (sample_tile 7%N true 5 0) (sample_texture 5%N 0 true) 5 in
  let w' := sample_world (sample_tile 7%N true 7 0) (sample_texture 5%N 0 true) 5 in
  call 5%N (OnGL (MarkAsDirty 7)) w = Some (tt, w') /\
  m_lastDirtyPicture (tile w') = 7 /\
  m_lastDirtyPicture (tile w) <= m_lastDirtyPicture (tile w').
Proof.
  intros w w'.
  assert (Hc : call 5%N (OnGL (MarkAsDirty 7)) w = Some (tt, w'))
    by reflexivity.
  destruct (lastDirtyPicture_is_the_last_marked 5%N _ w w' Hc) as [Hld Hup].
  split; [exact Hc|]. split; [exact Hld|].
  apply Hup. intros g [= <-]. simpl. lia.
Defined.

(** C5 on a sample world: the fresh tile holds no texture, the pool
    hands it the texture at [7], and the tile is dirty and not ready
    afterwards. *)
Lemma reserveTexture_resets_on_new_texture_witness :
  exists w',
    reserveTexture 5%N (fresh_world 5) = Some (tt, w') /\
    m_texture (tile w') = 7%N /\
    m_lastPaintedPicture (tile w') = 0 /\
    isDirty w' = Some (true, w') /\
    isTileReady 5%N w' = Some (false, w').
Proof.
  destruct (reserveTexture_resets_on_new_texture 5%N (fresh_world 5))
    as (w' & Hrun & Htex & _ & Hnew & _).
  destruct Hnew as (Hp & _ & Hdirty & _ & Hready); [discriminate|].
  exists w'. split; [exact Hrun|]. split; [exact Htex|].
  split; [exact Hp|]. split; [exact Hdirty|].
  apply Hready. right.
  assert (Hw' : w' = sample_run [OnGL ReserveTexture] (fresh_world 5)).
  { vm_compute in Hrun. injection Hrun as <-. reflexivity. }
  rewrite Hw'. eexists. reflexivity.
Defined.

(** C6 on sample worlds: a dirty tile whose texture is owned by the
    tile at [9], and one whose texture has used level 2, are left as
    they are by [paintBitmap], which locks and releases the producer
    side. *)
Lemma paintBitmap_abandoned_changes_nothing_witness :
  let taken := sample_world (sample_tile 7%N true 5 0) (sample_texture 9%N 0 true) 5 in
  let busy := sample_world (sample_tile 7%N true 5 0) (sample_texture 5%N 2 true) 5 in
  (exists w',
      paintBitmap 5%N taken = Some (tt, w') /\
      tile w' = tile taken /\
      trace w' = [ProducerLock 7%N; ProducerRelease 7%N]) /\
  (exists w',
      paintBitmap 5%N busy = Some (tt, w') /\
      tile w' = tile busy /\
      trace w' = [ProducerLock 7%N; ProducerRelease 7%N]).
Proof.
  intros taken busy. split.
  - destruct (paintBitmap_abandoned_changes_nothing 5%N taken) as [_ Hab].
    destruct (Hab (sample_texture 9%N 0 true))
      as (w' & Hrun & Ht & _ & _ & Htr & _);
      [reflexivity|discriminate|reflexivity|left; discriminate|].
    exists w'. auto.
  - destruct (paintBitmap_abandoned_changes_nothing 5%N busy) as [_ Hab].
    destruct (Hab (sample_texture 5%N 2 true))
      as (w' & Hrun & Ht & _ & _ & Htr & _);
      [reflexivity|discriminate|reflexivity|right; simpl; lia|].
    exists w'. auto.
Defined.

(** C7 on sample worlds: a clean tile is ready when its texture is
    owned by it, and not when the texture is owned by the tile at
    [9]. *)
Lemma isTileReady_cases_witness :
  let mine := sample_world (sample_tile 7%N false 5 5) (sample_texture 5%N 0 true) 5 in
  let taken := sample_world (sample_tile 7%N false 5 5) (sample_texture 9%N 0 true) 5 in
  isTileReady 5%N mine = Some (true, mine) /\
  isTileReady 5%N taken = Some (false, taken) /\
  isTileReady 5%N (fresh_world 5) = Some (false, fresh_world 5).
Proof.
  intros mine taken. split; [|split].
  - destruct (isTileReady_cases 5%N mine) as (_ & _ & Hmine).
    apply (Hmine (sample_texture 5%N 0 true));
      [discriminate|reflexivity|reflexivity].
  - destruct (isTileReady_cases 5%N taken) as (_ & Htaken & _).
    apply (Htaken (sample_texture 9%N 0 true));
      [discriminate|reflexivity|discriminate].
  - destruct (isTileReady_cases 5%N (fresh_world 5)) as (Hnull & _).
    apply Hnull. reflexivity.
Defined.

(** C8 on sample worlds: the painted tile submits one quad between the
    consumer lock and its release; a tile that holds a texture but was
    never painted submits none. *)
Lemma draw_submits_quad_only_when_painted_witness :
  let half := S754_finite false 8388608 (-24) in
  let unpainted := sample_run [OnGL ReserveTexture] (fresh_world 5) in
  (exists evs,
      draw half sample_rect (painted_world 5) =
        Some (tt, {| tile := tile (painted_world 5);
                     textures := textures (painted_world 5);
                     ext := ext (painted_world 5);
                     trace := trace (painted_world 5) ++ evs |}) /\
      evs = [ConsumerLock 7%N; DrawQuad sample_rect 3 half;
             ConsumerRelease 7%N]) /\
  (exists evs,
      draw half sample_rect unpainted =
        Some (tt, {| tile := tile unpainted;
                     textures := textures unpainted;
                     ext := ext unpainted;
                     trace := trace unpainted ++ evs |}) /\
      quads evs = []).
Proof.
  intros half unpainted. split.
  - destruct (draw_submits_quad_only_when_painted half sample_rect
                (painted_world 5)) as [_ Hlive].
    destruct (Hlive (sample_texture 5%N 0 true))
      as (evs & Hrun & _ & _ & _ & Hquad); [discriminate|reflexivity|].
    exists evs. split; [exact Hrun|].
    apply (Hquad sample_info); [reflexivity|discriminate].
  - destruct (draw_submits_quad_only_when_painted half sample_rect unpainted)
      as [_ Hlive].
    destruct (Hlive (sample_texture 5%N 0 true))
      as (evs & Hrun & _ & Hnone & _); [discriminate|reflexivity|].
    exists evs. split; [exact Hrun|]. apply Hnone. reflexivity.
Defined.

(** The scenarios of the tile's life: a change of scale on a fresh
    tile, and a texture taken away and handed back after a paint. *)
Example setScale_on_fresh_tile :
  isDirty (sample_run [OnGL (SetScale (Float.of_int 2))] (fresh_world 5))
  = Some (true, sample_run [OnGL (SetScale (Float.of_int 2))] (fresh_world 5)).
Proof. reflexivity. Qed.

Example markAsDirty_5_then_3 :
  tile (sample_run [OnGL (MarkAsDirty 5); OnGL (MarkAsDirty 3)] (fresh_world 5))
  = sample_tile 0%N true 3 0.
Proof. reflexivity. Qed.

Example texture_handed_back_after_paint :
  tile (sample_run [OnGL RemoveTexture; OnGL ReserveTexture] (painted_world 5))
  = sample_tile 7%N true 5 0.
Proof. vm_compute. reflexivity. Qed.

Example stale_paint_leaves_tile_dirty :
  tile (sample_run [OnGL ReserveTexture; OnGL (MarkAsDirty 9); PaintBitmap]
          (fresh_world 5))
  = sample_tile 7%N true 9 5.
Proof. vm_compute. reflexivity. Qed.

(** * The further properties on sample worlds *)


(** X2 on a sample world: the paint of the owned dirty tile calls the
    rasterizer, and the tile is dirty and owns its texture. *)
Lemma paintBitmap_paints_only_its_own_texture_witness :
  let w := owned_dirty_world 5 in
  let w' := sample_run [PaintBitmap] w in
  In (PaintBaseLayerContent 1%N) (trace w') /\
  m_dirty (tile w) = true /\
  exists T,
    textures w !! m_texture (tile w) = Some T /\
    owner T = 5%N /\ usedLevel T <= 1.
Proof.
  intros w w'.
  assert (Hp : paintBitmap 5%N w = Some (tt, w')) by (vm_compute; reflexivity).
  assert (Hin : In (PaintBaseLayerContent 1%N) (trace w'))
    by (vm_compute; do 4 right; left; reflexivity).
  destruct (paintBitmap_paints_only_its_own_texture 5%N w w' (trace w')
              (PaintBaseLayerContent 1%N) Hp eq_refl Hin eq_refl)
    as (Hd & _ & HT).
  split; [exact Hin|]. split; [exact Hd|exact HT].
Defined.

(** X3 on a sample world: over a tile's day the trace grows by a
    stretch that pairs its locks. *)
Lemma calls_pair_their_locks_witness :
  let w' := sample_run sample_day (fresh_world 5) in
  calls 5%N sample_day (fresh_world 5) = Some (tt, w') /\
  exists evs,
    trace w' = trace (fresh_world 5) ++ evs /\
    lock_run no_locks evs = Some no_locks.
Proof.
  intros w'.
  assert (Hc : calls 5%N sample_day (fresh_world 5) = Some (tt, w'))
    by (vm_compute; reflexivity).
  split; [exact Hc|].
  exact (calls_pair_their_locks 5%N sample_day (fresh_world 5) w' Hc).
Defined.

(** X4 on a sample world: after a tile's day the tile is still the one
    of page [1] at [(2, 3)]. *)
Lemma calls_keep_identity_witness :
  let w' := sample_run sample_day (fresh_world 5) in
  calls 5%N sample_day (fresh_world 5) = Some (tt, w') /\
  m_page (tile w') = 1%N /\ m_x (tile w') = 2 /\ m_y (tile w') = 3.
Proof.
  intros w'.
  assert (Hc : calls 5%N sample_day (fresh_world 5) = Some (tt, w'))
    by (vm_compute; reflexivity).
  split; [exact Hc|].
  exact (calls_keep_identity 5%N sample_day (fresh_world 5) w' Hc).
Defined.

(** X9 on a sample world: with used level 2 set, the owned dirty tile
    is not painted. *)
Lemma setUsedLevel_above_one_blocks_paint_witness :
  exists w',
    bind (setUsedLevel 2) (fun _ => paintBitmap 5%N) (owned_dirty_world 5)
      = Some (tt, w') /\
    tile w' = tile (owned_dirty_world 5) /\
    trace w' = [ProducerLock 7%N; ProducerRelease 7%N].
Proof.
  destruct (setUsedLevel_above_one_blocks_paint 5%N 2 (owned_dirty_world 5)
              (sample_texture 5%N 0 true))
    as (w' & Hrun & Ht & _ & Htr);
    [reflexivity|discriminate|reflexivity|lia|].
  exists w'. split; [exact Hrun|]. split; [exact Ht|exact Htr].
Defined.

(** X10 on a sample world: the painted tile answers ready, and it is
    clean and owns its texture. *)
Lemma isTileReady_true_means_owned_and_clean_witness :
  isTileReady 5%N (painted_world 5) = Some (true, painted_world 5) /\
  m_dirty (tile (painted_world 5)) = false /\
  exists T,
    textures (painted_world 5) !! m_texture (tile (painted_world 5)) = Some T /\
    owner T = 5%N.
Proof.
  assert (Hr : isTileReady 5%N (painted_world 5) = Some (true, painted_world 5))
    by (vm_compute; reflexivity).
  destruct (isTileReady_true_means_owned_and_clean 5%N _ _ Hr)
    as (_ & Hd & _ & HT).
  split; [exact Hr|]. split; [exact Hd|exact HT].
Defined.

(** X11 on a sample world: the owned dirty tile painted at the page's
    picture count 5 is ready, and a second paint does nothing. *)
Lemma paintBitmap_catching_up_makes_ready_witness :
  exists w',
    paintBitmap 5%N (owned_dirty_world 5) = Some (tt, w') /\
    isTileReady 5%N w' = Some (true, w') /\
    paintBitmap 5%N w' = Some (tt, w').
Proof.
  destruct (paintBitmap_catching_up_makes_ready 5%N (owned_dirty_world 5)
              (sample_texture 5%N 0 true))
    as (w' & Hrun & _ & Hready & Hidle & _);
    [reflexivity|discriminate|reflexivity|reflexivity|simpl; lia
    |vm_compute; discriminate|].
  exists w'. split; [exact Hrun|]. split; [exact Hready|exact Hidle].
Defined.

(** X12 on a sample world: a tile invalidated at picture count 0 and
    painted while the page is at count 0 is ready and draws no quad. *)
Lemma painted_at_count_zero_is_ready_but_not_drawn_witness :
  let w := sample_world (sample_tile 7%N true 0 0) (sample_texture 5%N 0 true) 0 in
  exists w',
    paintBitmap 5%N w = Some (tt, w') /\
    isTileReady 5%N w' = Some (true, w') /\
    draw (Float.of_int 1) sample_rect w' =
      Some (tt, {| tile := tile w'; textures := textures w'; ext := ext w';
                   trace := trace w' ++
                            [ConsumerLock 7%N; ConsumerRelease 7%N] |}).
Proof.
  intros w.
  destruct (painted_at_count_zero_is_ready_but_not_drawn 5%N w
              (sample_texture 5%N 0 true) (Float.of_int 1) sample_rect)
    as (w' & Hrun & Hready & Hdraw);
    [reflexivity|discriminate|reflexivity|reflexivity|simpl; lia
    |simpl; lia|reflexivity|].
  exists w'. split; [exact Hrun|]. split; [exact Hready|exact Hdraw].
Defined.


(** X14 on a sample world: with [markAsDirty(9)] after the snapshot and
    a change of scale while the texture is painted, the owned dirty
    tile ends dirty, painted at 5 and invalidated at 9. *)
Lemma paintBitmap_interleaved_dirty_covers_witness :
  let w := owned_dirty_world 5 in
  let w' :=
    @Build_World sample_collaborators
      (set_scale (Float.of_int 2) (sample_tile 7%N true 9 5))
      (textures w) 5 (trace (sample_run [PaintBitmap] w)) in
  paintBitmap_interleaved 5%N
    (gl_calls 5%N [MarkAsDirty 9])
    (gl_calls 5%N [SetScale (Float.of_int 2)]) w = Some (tt, w') /\
  dirty_covers (tile w) /\
  dirty_covers (tile w').
Proof.
  intros w w'.
  assert (Hinv : dirty_covers (tile w)) by (intros _; reflexivity).
  assert (Hrun : paintBitmap_interleaved 5%N
                   (gl_calls 5%N [MarkAsDirty 9])
                   (gl_calls 5%N [SetScale (Float.of_int 2)]) w
                 = Some (tt, w'))
    by (vm_compute; reflexivity).
  split; [exact Hrun|]. split; [exact Hinv|].
  exact (paintBitmap_interleaved_dirty_covers 5%N _ _ w w' Hrun Hinv).
Defined.

(** X15 on a sample world: the GL thread raises the used level to 2
    after the snapshot of the owned dirty tile; the paint is abandoned
    and the tile is as it was. *)
Lemma paintBitmap_checks_the_texture_after_the_lock_witness :
  let w := owned_dirty_world 5 in
  let w1 :=
    @Build_World sample_collaborators (tile w)
      (<[7%N := sample_texture 5%N 2 true]> (textures w)) 5 [] in
  setUsedLevel 2 w = Some (tt, w1) /\
  paintBitmap_interleaved 5%N (setUsedLevel 2) (ret tt) w =
  Some (tt, @Build_World sample_collaborators (tile w) (textures w1) 5
              [ProducerLock 7%N; ProducerRelease 7%N]).
Proof.
  intros w w1.
  assert (H1 : setUsedLevel 2 w = Some (tt, w1)) by reflexivity.
  split; [exact H1|].
  apply (paintBitmap_checks_the_texture_after_the_lock 5%N (setUsedLevel 2)
           (ret tt) w w1 (sample_texture 5%N 2 true));
    [reflexivity|discriminate|exact H1|reflexivity|right; simpl; lia].
Defined.
